(** * Position valuation and risk classification of defi-position-monitor

    A shallow embedding of
    - [src/protocols/alphalend/parser.py]  (token symbols, price resolution,
      share / direct-amount conversion, LTV and health factor),
    - [src/protocols/alphalend/adapter.py] (market cache, position parsing),
    - [src/services/monitor.py]           (alert tiers, alert cycle, daily report).

    Modelling choices.
    - Python floats are modelled by exact rationals [Q]; rounding of the
      float operations is not modelled.  [float('inf')] is the [Inf]
      constructor of [pyfloat].
    - Raw JSON-like records returned by the chain client are the inductive
      [json]; a raised Python exception is [None] in the [option] monad.
    - Python dicts used as maps with string keys ([prices],
      [token_decimals], [token_aliases]) are stdpp [gmap]s; the market cache
      ([dict[int, dict]]) is a [gmap Z json]. *)

From Stdlib Require Import QArith Qround Qabs Qpower ZArith String Ascii List.
From stdpp Require Import base gmap strings list.

Open Scope string_scope.
Set Warnings "-register-all".

(* ------------------------------------------------------------------ *)
(** ** Python values *)

Inductive json : Type :=
| JNone
| JBool (b : bool)
| JInt (z : Z)
| JFloat (q : Q)
| JStr (s : string)
| JList (l : list json)
| JDict (kvs : list (string * json)).

(** Extended floats: a finite value or [float('inf')]. *)
Inductive pyfloat : Type :=
| Fin (q : Q)
| Inf.

(** Float comparison [a < b]. *)
Definition Qlt_bool (a b : Q) : bool := negb (Qle_bool b a).

Fixpoint assoc {A} (k : string) (kvs : list (string * A)) : option A :=
  match kvs with
  | [] => None
  | (k', v) :: rest => if String.eqb k k' then Some v else assoc k rest
  end.

(** [d.get(k, default)]; raises (AttributeError) when [d] is not a dict. *)
Definition dict_get (d : json) (k : string) (dflt : json) : option json :=
  match d with
  | JDict kvs => Some (match assoc k kvs with Some v => v | None => dflt end)
  | _ => None
  end.

(** Python truthiness ([if not result]). *)
Definition truthy (v : json) : bool :=
  match v with
  | JNone => false
  | JBool b => b
  | JInt z => negb (Z.eqb z 0)
  | JFloat q => negb (Qeq_bool q 0)
  | JStr s => negb (String.eqb s "")
  | JList l => negb (Nat.eqb (length l) 0)
  | JDict kvs => negb (Nat.eqb (length kvs) 0)
  end.

(** [for x in v]: lists give their items, dicts their keys, strings their
    characters; anything else raises TypeError. *)
Definition py_iter (v : json) : option (list json) :=
  match v with
  | JList l => Some l
  | JDict kvs => Some (map (fun kv => JStr (fst kv)) kvs)
  | JStr s => Some (map (fun c => JStr (String c EmptyString)) (list_ascii_of_string s))
  | _ => None
  end.

Definition is_digit (c : ascii) : bool :=
  let n := nat_of_ascii c in (48 <=? n)%nat && (n <=? 57)%nat.

Definition is_space (c : ascii) : bool :=
  let n := nat_of_ascii c in
  (Nat.eqb n 32 || ((9 <=? n)%nat && (n <=? 13)%nat))%bool.

(** Digits of a decimal literal, single underscores allowed between digits
    (as Python's [int(str)] accepts them). *)
Fixpoint parse_digits (cs : list ascii) (acc : Z) (after_digit : bool) : option Z :=
  match cs with
  | [] => if after_digit then Some acc else None
  | c :: rest =>
      if is_digit c then
        parse_digits rest (acc * 10 + Z.of_nat (nat_of_ascii c - 48)) true
      else if (Ascii.eqb c "_"%char && after_digit)%bool then
        match rest with
        | d :: _ => if is_digit d then parse_digits rest acc false else None
        | [] => None
        end
      else None
  end.

Fixpoint drop_while (p : ascii -> bool) (cs : list ascii) : list ascii :=
  match cs with
  | c :: rest => if p c then drop_while p rest else cs
  | [] => []
  end.

Definition strip_spaces (cs : list ascii) : list ascii :=
  rev (drop_while is_space (rev (drop_while is_space cs))).

(** [int(v)]: ints as they are, bools as 0/1, floats truncated toward
    zero, strings parsed as an optionally signed decimal literal with
    surrounding whitespace; anything else raises. *)
Definition py_int (v : json) : option Z :=
  match v with
  | JInt z => Some z
  | JBool b => Some (if b then 1%Z else 0%Z)
  | JFloat q => Some (if Qle_bool 0 q then Qfloor q else Qceiling q)
  | JStr s =>
      match strip_spaces (list_ascii_of_string s) with
      | c :: rest =>
          if Ascii.eqb c "-"%char then option_map Z.opp (parse_digits rest 0 false)
          else if Ascii.eqb c "+"%char then parse_digits rest 0 false
          else parse_digits (c :: rest) 0 false
      | [] => None
      end
  | _ => None
  end.

(** Operations on [str] values: anything else raises. *)
Definition py_str (v : json) : option string :=
  match v with JStr s => Some s | _ => None end.

(** [str.upper()] on ASCII letters. *)
Definition upper_char (c : ascii) : ascii :=
  let n := nat_of_ascii c in
  if ((97 <=? n)%nat && (n <=? 122)%nat)%bool then ascii_of_nat (n - 32) else c.

Definition upper (s : string) : string :=
  string_of_list_ascii (map upper_char (list_ascii_of_string s)).

Fixpoint prefix_eqb (p cs : list ascii) : bool :=
  match p, cs with
  | [], _ => true
  | a :: p', b :: cs' => Ascii.eqb a b && prefix_eqb p' cs'
  | _ :: _, [] => false
  end.

(** [sub in s] on strings. *)
Fixpoint contains_aux (p cs : list ascii) : bool :=
  match cs with
  | [] => prefix_eqb p cs
  | _ :: rest => prefix_eqb p cs || contains_aux p rest
  end.

Definition contains (s sub : string) : bool :=
  contains_aux (list_ascii_of_string sub) (list_ascii_of_string s).

(** [s.split(sep)] for a non-empty separator, scanning left to right; the
    fuel is the length of the string, enough for every step. *)
Fixpoint split_aux (sep : list ascii) (fuel : nat) (cs cur : list ascii)
  : list (list ascii) :=
  match fuel with
  | O => [(rev cur ++ cs)%list]
  | S fuel' =>
      match cs with
      | [] => [rev cur]
      | c :: rest =>
          if prefix_eqb sep cs
          then rev cur :: split_aux sep fuel' (List.skipn (length sep) cs) []
          else split_aux sep fuel' rest (c :: cur)
      end
  end.

Definition split (s sep : string) : list string :=
  let cs := list_ascii_of_string s in
  map string_of_list_ascii (split_aux (list_ascii_of_string sep) (S (length cs)) cs []).

Definition last_or_empty (l : list string) : string :=
  List.last l "".

(* ------------------------------------------------------------------ *)
(** ** parser.py *)

(** [get_token_symbol]. *)
Definition get_token_symbol (coin_type : string) : string :=
  if contains coin_type "::" then upper (last_or_empty (split coin_type "::"))
  else upper coin_type.

(** [get_decimals]: [token_decimals.get(token_symbol, 9)]. *)
Definition get_decimals (token_symbol : string) (token_decimals : gmap string Z) : Z :=
  default 9%Z (token_decimals !! token_symbol).

(** [resolve_price]. *)
Definition resolve_price (token_symbol : string) (prices : gmap string Q)
    (token_aliases : gmap string string) : Q :=
  let price := default 0%Q (prices !! token_symbol) in
  if Qeq_bool price 0 then
    match token_aliases !! token_symbol with
    | Some alias => default 0%Q (prices !! alias)
    | None => price
    end
  else price.

(** [10 ** n] for an integer exponent (a float for negative [n]). *)
Definition pow10 (n : Z) : Q := Qpower (inject_Z 10) n.

(** The dicts built by [parse_collateral_entry] / [parse_loan_entry]; a loan
    detail has no ["market_id"] key. *)
Record entry_detail := {
  symbol : string;
  market_id : option Z;
  amount : Q;
  price : Q;
  usd_value : Q
}.

(** Lines 58-64 of [parse_collateral_entry]: the [xtoken_ratio] of a
    market record, a plain value or a [{"fields": {"value": ...}}] dict,
    [10**18] where absent. *)
Definition read_xtoken_ratio (market_info : json) : option Z :=
  xtoken_ratio_raw ← dict_get market_info "xtoken_ratio" (JInt (10 ^ 18));
  match xtoken_ratio_raw with
  | JDict _ =>
      xf ← dict_get xtoken_ratio_raw "fields" (JDict []);
      xv ← dict_get xf "value" (JInt (10 ^ 18));
      py_int xv
  | _ => py_int xtoken_ratio_raw
  end.

(** Line 66: [(shares * xtoken_ratio) / (10**18) / (10**decimals)]. *)
Definition share_amount (shares xtoken_ratio decimals : Z) : Q :=
  (inject_Z (shares * xtoken_ratio) / pow10 18 / pow10 decimals)%Q.

(** Line 99: [raw_amount / (10**decimals)]. *)
Definition direct_amount (raw_amount decimals : Z) : Q :=
  (inject_Z raw_amount / pow10 decimals)%Q.

(** [parse_collateral_entry]. *)
Definition parse_collateral_entry (entry market_info : json) (prices : gmap string Q)
    (token_decimals : gmap string Z) (token_aliases : gmap string string)
    : option entry_detail :=
  fields ← dict_get entry "fields" (JDict []);
  key ← dict_get fields "key" (JInt 0);
  mid ← py_int key;
  value ← dict_get fields "value" (JInt 0);
  shares ← py_int value;
  ct ← dict_get market_info "coin_type" (JDict []);
  ct_fields ← dict_get ct "fields" (JDict []);
  name ← dict_get ct_fields "name" (JStr "Unknown");
  coin_type ← py_str name;
  let sym := get_token_symbol coin_type in
  let decimals := get_decimals sym token_decimals in
  xtoken_ratio ← read_xtoken_ratio market_info;
  let amt := share_amount shares xtoken_ratio decimals in
  let pr := resolve_price sym prices token_aliases in
  Some {| symbol := sym; market_id := Some mid; amount := amt; price := pr;
          usd_value := (amt * pr)%Q |}.

(** [parse_loan_entry]. *)
Definition parse_loan_entry (entry : json) (prices : gmap string Q)
    (token_decimals : gmap string Z) (token_aliases : gmap string string)
    : option entry_detail :=
  fields ← dict_get entry "fields" (JDict []);
  raw ← dict_get fields "amount" (JInt 0);
  raw_amount ← py_int raw;
  ct ← dict_get fields "coin_type" (JDict []);
  ct_fields ← dict_get ct "fields" (JDict []);
  name ← dict_get ct_fields "name" (JStr "Unknown");
  coin_type ← py_str name;
  let sym := get_token_symbol coin_type in
  let decimals := get_decimals sym token_decimals in
  let amt := direct_amount raw_amount decimals in
  let pr := resolve_price sym prices token_aliases in
  Some {| symbol := sym; market_id := None; amount := amt; price := pr;
          usd_value := (amt * pr)%Q |}.

(** [calc_ltv]. *)
Definition calc_ltv (total_collateral_usd total_borrowed_usd : Q) : Q :=
  if Qle_bool total_collateral_usd 0 then 0%Q
  else (total_borrowed_usd / total_collateral_usd * 100)%Q.

(** [calc_health_factor]. *)
Definition calc_health_factor (total_collateral_usd total_borrowed_usd
    liquidation_threshold : Q) : pyfloat :=
  if Qle_bool total_borrowed_usd 0 then Inf
  else Fin (total_collateral_usd * liquidation_threshold / 100 / total_borrowed_usd)%Q.

(* ------------------------------------------------------------------ *)
(** ** Number formatting: Python's [f"{x:.Nf}"] and [f"{x:,.Nf}"]

    The exact value is rounded to [places] decimals, ties to even (what
    Python does on the exact value of a float); [grouping] inserts a comma
    every three integer digits. *)

Definition digit_char (d : Z) : ascii := ascii_of_nat (48 + Z.to_nat d).

Fixpoint digits_aux (fuel : nat) (n : Z) (acc : list ascii) : list ascii :=
  match fuel with
  | O => acc
  | S fuel' =>
      let acc' := digit_char (n mod 10) :: acc in
      if (n <? 10)%Z then acc' else digits_aux fuel' (n / 10) acc'
  end.

(** Decimal digits of a non-negative integer. *)
Definition digits (n : Z) : list ascii := digits_aux (S (Z.to_nat (Z.log2 n))) n [].

Fixpoint group3 (rev_digits : list ascii) : list ascii :=
  match rev_digits with
  | a :: b :: c :: (_ :: _) as rest => a :: b :: c :: ","%char :: group3 rest
  | l => l
  end.

Definition round_half_even (q : Q) : Z :=
  let fl := Qfloor q in
  let fr := (q - inject_Z fl)%Q in
  if Qlt_bool (1 # 2) fr then (fl + 1)%Z
  else if Qlt_bool fr (1 # 2) then fl
  else if Z.even fl then fl else (fl + 1)%Z.

Definition format_fixed (places : nat) (grouping : bool) (q : Q) : string :=
  let neg := Qlt_bool q 0 in
  let n := round_half_even (Qabs q * inject_Z (10 ^ Z.of_nat places))%Q in
  let ip := digits (n / 10 ^ Z.of_nat places) in
  let fp := digits (n mod 10 ^ Z.of_nat places) in
  let ip' := if grouping then rev (group3 (rev ip)) else ip in
  let fp' := (repeat "0"%char (places - length fp) ++ fp)%list in
  (if neg then "-" else "") ++ string_of_list_ascii ip' ++
  (match places with O => "" | _ => "." ++ string_of_list_ascii fp' end).

(** [f"{x:.2f}"] on an extended float: [inf] prints as ["inf"]. *)
Definition format_pyfloat_2f (x : pyfloat) : string :=
  match x with Fin q => format_fixed 2 false q | Inf => "inf" end.

(** [sep.join(parts)]. *)
Fixpoint join (sep : string) (parts : list string) : string :=
  match parts with
  | [] => ""
  | [p] => p
  | p :: rest => p ++ sep ++ join sep rest
  end.

(** [build_asset_summary]. *)
Definition build_asset_summary (details : list entry_detail) : string :=
  let parts := map (fun d => symbol d ++ " (" ++ format_fixed 4 false (amount d) ++
                             " @ $" ++ format_fixed 2 true (price d) ++ ")") details in
  match parts with [] => "N/A" | _ => join ", " parts end.

(* ------------------------------------------------------------------ *)
(** ** models.py *)

Module Models.

(** [AssetDetail]. *)
Record AssetDetail := {
  symbol : string;
  amount : Q;
  price : Q;
  usd_value : Q
}.

(** [PositionData]. *)
Record PositionData := {
  collateral_value : Q;
  borrowed_value : Q;
  ltv : Q;
  health_factor : pyfloat;
  liquidation_threshold : Q;
  asset : string;
  borrowed_asset : string;
  protocol_name : string;
  wallet_label : string;
  collateral_assets : list AssetDetail;
  borrowed_assets : list AssetDetail
}.

End Models.

(* ------------------------------------------------------------------ *)
(** ** adapter.py *)

(** The part of [ProtocolConfig] the adapter reads. *)
Record ProtocolConfig := {
  token_decimals : gmap string Z;
  token_aliases : gmap string string;
  liquidation_threshold : Q
}.

(** Lines 79-81 of [_get_market_info]:
    [result["content"]["fields"]["value"]["fields"]], each level [{}] where
    absent. *)
Definition extract_market (result : json) : option json :=
  content ← dict_get result "content" (JDict []);
  fields ← dict_get content "fields" (JDict []);
  value ← dict_get fields "value" (JDict []);
  dict_get value "fields" (JDict []).

(** [AlphaLendAdapter._get_market_info].  [rpc market_id] is what
    [get_dynamic_field_object] answers for the market table on this call
    ([None]: it raised).  The answer is the market record and the new
    cache. *)
Definition get_market_info (rpc : Z -> option json) (market_cache : gmap Z json)
    (mid : Z) : json * gmap Z json :=
  match market_cache !! mid with
  | Some m => (m, market_cache)
  | None =>
      match rpc mid with
      | None => (JDict [], market_cache)                    (* except branch *)
      | Some result =>
          if negb (truthy result) then (JDict [], market_cache)
          else
            match extract_market result with
            | Some market => (market, <[mid := market]> market_cache)
            | None => (JDict [], market_cache)              (* except branch *)
            end
      end
  end.

(** The collateral loop of [_parse_position]: each entry looks its market
    up (through the cache) and is parsed; [total_collateral_usd] is
    accumulated from [0.0].  A raised exception ends the loop with [None],
    keeping the cache as it was when it was raised. *)
Fixpoint parse_collaterals (rpc : Z -> option json) (prices : gmap string Q)
    (cfg : ProtocolConfig) (entries : list json) (market_cache : gmap Z json)
    (details : list entry_detail) (total : Q)
    : option (list entry_detail * Q) * gmap Z json :=
  match entries with
  | [] => (Some (details, total), market_cache)
  | entry :: rest =>
      match (f ← dict_get entry "fields" (JDict []);
             k ← dict_get f "key" (JInt 0);
             py_int k) with
      | None => (None, market_cache)
      | Some mid =>
          let '(market_info, cache1) := get_market_info rpc market_cache mid in
          match parse_collateral_entry entry market_info prices
                  (token_decimals cfg) (token_aliases cfg) with
          | None => (None, cache1)
          | Some d =>
              parse_collaterals rpc prices cfg rest cache1 (details ++ [d])
                (total + usd_value d)%Q
          end
      end
  end.

(** The loan loop of [_parse_position]. *)
Fixpoint parse_loans (prices : gmap string Q) (cfg : ProtocolConfig)
    (entries : list json) (details : list entry_detail) (total : Q)
    : option (list entry_detail * Q) :=
  match entries with
  | [] => Some (details, total)
  | entry :: rest =>
      d ← parse_loan_entry entry prices (token_decimals cfg) (token_aliases cfg);
      parse_loans prices cfg rest (details ++ [d]) (total + usd_value d)%Q
  end.

Definition to_asset_detail (d : entry_detail) : Models.AssetDetail :=
  {| Models.symbol := symbol d; Models.amount := amount d;
     Models.price := price d; Models.usd_value := usd_value d |}.

(** [AlphaLendAdapter._parse_position] (its logging is left out: it only
    prints).  [position_data] is a dict, as [fetch_positions] checked it
    is non-empty. *)
Definition parse_position (cfg : ProtocolConfig) (rpc : Z -> option json)
    (position_data : json) (prices : gmap string Q) (market_cache : gmap Z json)
    : option Models.PositionData * gmap Z json :=
  match (c ← dict_get position_data "collaterals" (JDict []);
         cf ← dict_get c "fields" (JDict []);
         cc ← dict_get cf "contents" (JList []);
         py_iter cc) with
  | None => (None, market_cache)
  | Some collaterals_raw =>
      let '(r, cache1) := parse_collaterals rpc prices cfg collaterals_raw market_cache [] 0 in
      match r with
      | None => (None, cache1)
      | Some (collateral_details, total_collateral_usd) =>
          match (l ← dict_get position_data "loans" (JList []);
                 loans_raw ← py_iter l;
                 parse_loans prices cfg loans_raw [] 0) with
          | None => (None, cache1)
          | Some (loan_details, total_loan_usd) =>
              let lt := liquidation_threshold cfg in
              (Some {| Models.collateral_value := total_collateral_usd;
                       Models.borrowed_value := total_loan_usd;
                       Models.ltv := calc_ltv total_collateral_usd total_loan_usd;
                       Models.health_factor :=
                         calc_health_factor total_collateral_usd total_loan_usd lt;
                       Models.liquidation_threshold := lt;
                       Models.asset := build_asset_summary collateral_details;
                       Models.borrowed_asset := build_asset_summary loan_details;
                       Models.protocol_name := "alphalend";
                       Models.wallet_label := "";
                       Models.collateral_assets := map to_asset_detail collateral_details;
                       Models.borrowed_assets := map to_asset_detail loan_details |},
               cache1)
          end
      end
  end.

(* ------------------------------------------------------------------ *)
(** ** monitor.py *)

(** [ThresholdsConfig]. *)
Record ThresholdsConfig := {
  ltv_warning : Q;
  ltv_critical : Q
}.

(** [WalletConfig]. *)
Record WalletConfig := {
  label : string;
  chain : string;
  address : string;
  protocols : list string
}.

(** The three strings [Monitor._get_status] returns. *)
Inductive AlertTier := Healthy | Warning | Critical.

Definition status_text (t : AlertTier) : string :=
  match t with
  | Critical => "🚨 CRITICAL"
  | Warning => "⚠️ WARNING"
  | Healthy => "✅ Healthy"
  end.

(** [Monitor._get_status]. *)
Definition get_status (th : ThresholdsConfig) (ltv : Q) : AlertTier :=
  if Qle_bool (ltv_critical th) ltv then Critical
  else if Qle_bool (ltv_warning th) ltv then Warning
  else Healthy.

Definition nl : string := String (ascii_of_nat 10) EmptyString.

(** [Monitor._format_wallet]. *)
Definition format_wallet (addr : string) : string :=
  if (16 <? String.length addr)%nat
  then substring 0 10 addr ++ "..." ++ substring (String.length addr - 6) 6 addr
  else addr.

(** [Monitor._asset_symbols]. *)
Definition asset_symbols (assets : list Models.AssetDetail) : string :=
  match assets with
  | [] => "—"
  | _ => join ", " (map Models.symbol assets)
  end.

(** What [check_and_alert] and [generate_daily_report] hand to
    [_send_log] and [_send_alert]. *)
Inductive Notification :=
| SendLog (message : string) (silent : bool)
| SendAlert (message : string) (subject : string).

Section Monitor.

Variable thresholds : ThresholdsConfig.
(** Protocol names that have an adapter ([self._adapters]). *)
Variable adapters : gset string.
(** [adapter.fetch_positions(address, prices)] of the adapter of a protocol. *)
Variable fetch_positions : string -> string -> gmap string Q -> list Models.PositionData.
(** [self._oracle.fetch_prices()] for this cycle. *)
Variable prices : gmap string Q.
(** [self._now_str()]. *)
Variable now : string.

Definition build_log_message (position : Models.PositionData)
    (wallet_label proto_name chain : string) : string :=
  "📊 " ++ wallet_label ++ " · " ++ proto_name ++ " · " ++ upper chain ++ nl ++
  nl ++
  status_text (get_status thresholds (Models.ltv position)) ++ nl ++
  nl ++
  "Collateral: " ++ asset_symbols (Models.collateral_assets position) ++ " — $" ++
    format_fixed 2 true (Models.collateral_value position) ++ nl ++
  "Borrowed: " ++ asset_symbols (Models.borrowed_assets position) ++ " — $" ++
    format_fixed 2 true (Models.borrowed_value position) ++ nl ++
  "LTV: " ++ format_fixed 2 false (Models.ltv position) ++ "% · HF: " ++
    format_pyfloat_2f (Models.health_factor position) ++ nl ++
  nl ++
  now ++ " UTC".

(** The common body of [_build_critical_alert] and [_build_warning_alert]. *)
Definition alert_body (head advice : string) (position : Models.PositionData)
    (wallet_address wallet_label proto_name chain : string) : string :=
  head ++ " — LTV " ++ format_fixed 2 false (Models.ltv position) ++ "%" ++ nl ++
  nl ++
  wallet_label ++ " · " ++ proto_name ++ " · " ++ upper chain ++ nl ++
  nl ++
  "Collateral: " ++ asset_symbols (Models.collateral_assets position) ++ nl ++
  "  $" ++ format_fixed 2 true (Models.collateral_value position) ++ nl ++
  nl ++
  "Borrowed: " ++ asset_symbols (Models.borrowed_assets position) ++ nl ++
  "  $" ++ format_fixed 2 true (Models.borrowed_value position) ++ nl ++
  nl ++
  "Health Factor: " ++ format_pyfloat_2f (Models.health_factor position) ++ nl ++
  "Liquidation Threshold: " ++
    format_fixed 2 false (Models.liquidation_threshold position) ++ "%" ++ nl ++
  nl ++
  advice ++ nl ++
  nl ++
  "Wallet: " ++ format_wallet wallet_address ++ nl ++
  now ++ " UTC".

Definition build_critical_alert :=
  alert_body "🚨 CRITICAL" "⚠️ Add collateral or repay debt immediately!".

Definition build_warning_alert :=
  alert_body "⚠️ WARNING" "Consider adding collateral or reducing borrowed amount.".

(** The log sent for a wallet x protocol pair with no position. *)
Definition no_positions_log (w : WalletConfig) (proto_name : string) : string :=
  "📊 " ++ label w ++ " · " ++ proto_name ++ " · " ++ upper (chain w) ++ nl ++
  nl ++
  "No active positions found." ++ nl ++
  nl ++
  now ++ " UTC".

(** The [if / elif] on the LTV in [check_and_alert]. *)
Definition alert_for (w : WalletConfig) (proto_name : string)
    (position : Models.PositionData) : list Notification :=
  if Qle_bool (ltv_critical thresholds) (Models.ltv position) then
    [SendAlert (build_critical_alert position (address w) (label w) proto_name (chain w))
       "🚨 CRITICAL: Liquidation Risk!"]
  else if Qle_bool (ltv_warning thresholds) (Models.ltv position) then
    [SendAlert (build_warning_alert position (address w) (label w) proto_name (chain w))
       "⚠️ WARNING: High LTV"]
  else [].

(** The body of the inner loop of [check_and_alert]. *)
Definition check_pair (w : WalletConfig) (proto_name : string) : list Notification :=
  if decide (proto_name ∈ adapters) then
    match fetch_positions proto_name (address w) prices with
    | [] => [SendLog (no_positions_log w proto_name) false]
    | positions =>
        flat_map (fun position =>
          SendLog (build_log_message position (label w) proto_name (chain w)) false
          :: alert_for w proto_name position) positions
    end
  else [].

(** [Monitor.check_and_alert]: the notifications of one cycle, in order. *)
Definition check_and_alert (wallets : list WalletConfig) : list Notification :=
  flat_map (fun w => flat_map (check_pair w) (protocols w)) wallets.

Definition report_line (proto_name : string) (position : Models.PositionData) : string :=
  proto_name ++ " · " ++ status_text (get_status thresholds (Models.ltv position)) ++ nl ++
  "  Collateral: $" ++ format_fixed 2 true (Models.collateral_value position) ++ nl ++
  "  Borrowed: $" ++ format_fixed 2 true (Models.borrowed_value position) ++ nl ++
  "  LTV: " ++ format_fixed 2 false (Models.ltv position) ++ "% · HF: " ++
    format_pyfloat_2f (Models.health_factor position).

(** [wallet_lines] of one wallet in [generate_daily_report]. *)
Definition wallet_lines (w : WalletConfig) : list string :=
  flat_map (fun proto_name =>
    if decide (proto_name ∈ adapters)
    then map (report_line proto_name) (fetch_positions proto_name (address w) prices)
    else []) (protocols w).

(** The section of a wallet, appended only [if wallet_lines]. *)
Definition wallet_section (w : WalletConfig) : option string :=
  match wallet_lines w with
  | [] => None
  | lines =>
      Some ("━━ " ++ label w ++ " (" ++ upper (chain w) ++ ") ━━" ++ nl ++ nl ++
            join (nl ++ nl) lines)
  end.

Definition report_sections (wallets : list WalletConfig) : list string :=
  omap wallet_section wallets.

Definition daily_report (wallets : list WalletConfig) : string :=
  let sections := report_sections wallets in
  let body := match sections with
              | [] => "No active positions found."
              | _ => join (nl ++ nl) sections
              end in
  "📋 Daily DeFi Position Report" ++ nl ++
  nl ++
  body ++ nl ++
  nl ++
  now ++ " UTC".

(** [Monitor.generate_daily_report]: one [_send_alert(report)]. *)
Definition generate_daily_report (wallets : list WalletConfig) : list Notification :=
  [SendAlert (daily_report wallets) ""].

End Monitor.

(** [sum(values)]: a left fold from 0. *)
Definition py_sum (values : list Q) : Q := fold_left Qplus values 0%Q.

(* ------------------------------------------------------------------ *)
(** ** adapter.py: position discovery and [fetch_positions] *)

(** [str.lower()] on ASCII letters. *)
Definition lower_char (c : ascii) : ascii :=
  let n := nat_of_ascii c in
  if ((65 <=? n)%nat && (n <=? 90)%nat)%bool then ascii_of_nat (n + 32) else c.

Definition lower (s : string) : string :=
  string_of_list_ascii (map lower_char (list_ascii_of_string s)).

(** The body of the loop of [_get_position_capabilities] on one owned
    object: the ids it appends ([[]] or [[object_id]]). *)
Definition position_cap_of (package_id : string) (obj : json) : option (list json) :=
  data ← dict_get obj "data" (JDict []);
  obj_type ← dict_get data "type" (JStr "");
  data' ← dict_get obj "data" (JDict []);
  object_id ← dict_get data' "objectId" (JStr "");
  t ← py_str obj_type;
  let type_lower := lower t in
  if (contains type_lower "positioncap" || contains type_lower "position_cap" ||
      contains t package_id)%bool
  then Some (if truthy object_id then [object_id] else [])
  else Some [].

(** [AlphaLendAdapter._get_position_capabilities] on the objects
    [get_owned_objects] returned. *)
Fixpoint get_position_capabilities (package_id : string) (objects : list json)
    : option (list json) :=
  match objects with
  | [] => Some []
  | obj :: rest =>
      c ← position_cap_of package_id obj;
      cs ← get_position_capabilities package_id rest;
      Some (c ++ cs)%list
  end.

(** [AlphaLendAdapter._get_position_data]: [rpc position_id] is what
    [get_dynamic_field_object] answers for the positions table ([None]: it
    raised).  Lines 60-62 read the same path as [extract_market]. *)
Definition get_position_data (rpc : json -> option json) (position_id : json) : json :=
  match rpc position_id with
  | None => JDict []
  | Some result =>
      if negb (truthy result) then JDict []
      else match extract_market result with
           | Some v => v
           | None => JDict []
           end
  end.

(** The calls of the chain client the adapter makes ([None]: the call
    raised). *)
Record ChainClient := {
  get_owned_objects : string -> list json;
  get_object : json -> option json;
  positions_table : json -> option json;
  markets_table : Z -> option json
}.

(** [AlphaLendAdapter]: its configuration and [contracts["package_id"]]. *)
Record AlphaLendAdapter := {
  adapter_config : ProtocolConfig;
  package_id : string
}.

(** The [position_id] read from a PositionCap object (line 102-105). *)
Definition cap_position_id (details : json) : option json :=
  d ← dict_get details "data" (JDict []);
  c ← dict_get d "content" (JDict []);
  cap_content ← dict_get c "fields" (JDict []);
  dict_get cap_content "position_id" JNone.

(** The loop of [fetch_positions] over the position caps.  A
    [PositionData] is always truthy, so [if position:] always appends. *)
Fixpoint fetch_caps (ad : AlphaLendAdapter) (client : ChainClient) (prices : gmap string Q)
    (caps : list json) (positions : list Models.PositionData) (market_cache : gmap Z json)
    : option (list Models.PositionData) * gmap Z json :=
  match caps with
  | [] => (Some positions, market_cache)
  | cap_id :: rest =>
      match (details ← get_object client cap_id; cap_position_id details) with
      | None => (None, market_cache)
      | Some position_id =>
          if negb (truthy position_id)
          then fetch_caps ad client prices rest positions market_cache
          else
            let position_data := get_position_data (positions_table client) position_id in
            if negb (truthy position_data)
            then fetch_caps ad client prices rest positions market_cache
            else
              match parse_position (adapter_config ad) (markets_table client)
                      position_data prices market_cache with
              | (None, cache1) => (None, cache1)
              | (Some position, cache1) =>
                  fetch_caps ad client prices rest (positions ++ [position])%list cache1
              end
      end
  end.

(** [AlphaLendAdapter.fetch_positions]: the positions and the market cache
    after the call. *)
Definition fetch_positions (ad : AlphaLendAdapter) (client : ChainClient)
    (wallet_address : string) (prices : gmap string Q) (market_cache : gmap Z json)
    : option (list Models.PositionData) * gmap Z json :=
  match get_position_capabilities (package_id ad) (get_owned_objects client wallet_address) with
  | None => (None, market_cache)
  | Some position_caps => fetch_caps ad client prices position_caps [] market_cache
  end.

(* ------------------------------------------------------------------ *)
(** ** Counting what [check_and_alert] sends *)

(** The positions of the monitored pairs of the wallets, in the order of
    the loops of [check_and_alert] and [generate_daily_report]. *)
Definition monitored_positions (adapters : gset string)
    (fetch : string -> string -> gmap string Q -> list Models.PositionData)
    (prices : gmap string Q) (wallets : list WalletConfig) : list Models.PositionData :=
  flat_map (fun w => flat_map (fun proto_name =>
    if decide (proto_name ∈ adapters) then fetch proto_name (address w) prices else [])
    (protocols w)) wallets.

(** The monitored pairs whose fetch gave no position. *)
Definition empty_pairs (adapters : gset string)
    (fetch : string -> string -> gmap string Q -> list Models.PositionData)
    (prices : gmap string Q) (wallets : list WalletConfig) : list (WalletConfig * string) :=
  flat_map (fun w => flat_map (fun proto_name =>
    if decide (proto_name ∈ adapters) then
      match fetch proto_name (address w) prices with [] => [(w, proto_name)] | _ => [] end
    else []) (protocols w)) wallets.

Definition is_alert (n : Notification) : bool :=
  match n with SendAlert _ _ => true | SendLog _ _ => false end.

Definition is_log (n : Notification) : bool :=
  match n with SendLog _ _ => true | SendAlert _ _ => false end.

Definition tier_rank (t : AlertTier) : nat :=
  match t with Healthy => 0 | Warning => 1 | Critical => 2 end.

(** A wallet with one protocol name taken out of its [protocols]. *)
Definition without_protocol (w : WalletConfig) (proto_name : string) : WalletConfig :=
  {| label := label w; chain := chain w; address := address w;
     protocols := List.filter (fun p => negb (String.eqb p proto_name)) (protocols w) |}.

(* ------------------------------------------------------------------ *)
(** ** Records in the shape the chain client returns them *)

Definition collateral_entry (key value : json) : json :=
  JDict [("fields", JDict [("key", key); ("value", value)])].

Definition coin_type_field (name : option string) : list (string * json) :=
  match name with
  | Some n => [("coin_type", JDict [("fields", JDict [("name", JStr n)])])]
  | None => []
  end.

Definition market_record (name : option string) (xtoken_ratio : option json) : json :=
  JDict (coin_type_field name ++
         match xtoken_ratio with Some r => [("xtoken_ratio", r)] | None => [] end)%list.

Definition loan_entry (raw : json) (name : option string) : json :=
  JDict [("fields", JDict (("amount", raw) :: coin_type_field name))].

(** An owned object with its type and id, as [get_owned_objects] lists it. *)
Definition owned_object (obj_type object_id : string) : json :=
  JDict [("data", JDict [("type", JStr obj_type); ("objectId", JStr object_id)])].

(* ------------------------------------------------------------------ *)
(** ** Sample inputs *)

Definition thresholds_70_80 : ThresholdsConfig :=
  {| ltv_warning := 70; ltv_critical := 80 |}.

(** A stored position: 500 SUI of collateral (as shares at ratio 1) and a
    loan of 1 USDC. *)
Definition sample_position_data : json :=
  JDict [("collaterals",
            JDict [("fields",
                      JDict [("contents",
                                JList [collateral_entry (JStr "1") (JStr "500000000000")])])]);
         ("loans", JList [loan_entry (JStr "1000000") (Some "0xdba3::usdc::USDC")])].

(** The markets table answers every market with the SUI market. *)
Definition sample_rpc (_ : Z) : option json :=
  Some (JDict [("content",
           JDict [("fields",
              JDict [("value",
                 JDict [("fields",
                    market_record (Some "0x2::sui::SUI")
                      (Some (JDict [("fields", JDict [("value", JStr "1000000000000000000")])])))])])])]).

(** The SUI market record of [sample_rpc]. *)
Definition sui_market : json :=
  market_record (Some "0x2::sui::SUI")
    (Some (JDict [("fields", JDict [("value", JStr "1000000000000000000")])])).

Definition sample_config : ProtocolConfig :=
  {| token_decimals := <["USDC" := 6%Z]> (<["SUI" := 9%Z]> ∅);
     token_aliases := <["XBTC" := "BTC"]> ∅;
     liquidation_threshold := 85 |}.

Definition sample_prices : gmap string Q := <["USDC" := 1%Q]> (<["SUI" := (7 # 2)%Q]> ∅).

Definition sample_position : Models.PositionData :=
  {| Models.collateral_value := 1750;
     Models.borrowed_value := 875;
     Models.ltv := 50;
     Models.health_factor := Fin (17 # 10);
     Models.liquidation_threshold := 85;
     Models.asset := "SUI (500.0000 @ $3.50)";
     Models.borrowed_asset := "USDC (875.0000 @ $1.00)";
     Models.protocol_name := "alphalend";
     Models.wallet_label := "";
     Models.collateral_assets :=
       [{| Models.symbol := "SUI"; Models.amount := 500; Models.price := 7 # 2;
           Models.usd_value := 1750 |}];
     Models.borrowed_assets :=
       [{| Models.symbol := "USDC"; Models.amount := 875; Models.price := 1;
           Models.usd_value := 875 |}] |}.

(** Two wallets monitored on alphalend: the first holds [sample_position],
    the second holds nothing. *)
Definition wallet_main : WalletConfig :=
  {| label := "main"; chain := "sui"; address := "0xaaa"; protocols := ["alphalend"] |}.

Definition wallet_spare : WalletConfig :=
  {| label := "spare"; chain := "sui"; address := "0xbbb"; protocols := ["alphalend"] |}.

Definition is_str (v : json) (s : string) : bool :=
  match v with JStr s' => String.eqb s' s | _ => false end.

(** A chain client for the wallet ["0xaaa"]: it owns one AlphaLend
    PositionCap (["0xcap"]) and a coin; the cap points at the position
    ["0xpos"], stored as [sample_position_data]. *)
Definition sample_client : ChainClient :=
  {| get_owned_objects := fun addr =>
       if String.eqb addr "0xaaa"
       then [owned_object "0xa1::position_cap::PositionCap" "0xcap";
             owned_object "0x2::coin::Coin<0x2::sui::SUI>" "0xcoin"]
       else [];
     get_object := fun cap_id =>
       Some (JDict [("data", JDict [("content", JDict [("fields",
               JDict [("position_id", if is_str cap_id "0xcap"
                                      then JStr "0xpos" else JNone)])])])]);
     positions_table := fun position_id =>
       Some (JDict [("content", JDict [("fields", JDict [("value",
               JDict [("fields", if is_str position_id "0xpos"
                                 then sample_position_data else JDict [])])])])]);
     markets_table := sample_rpc |}.

Definition sample_adapter : AlphaLendAdapter :=
  {| adapter_config := sample_config; package_id := "0xa1" |}.

Definition sample_fetch (proto_name addr : string) (_ : gmap string Q)
    : list Models.PositionData :=
  if String.eqb addr "0xaaa" then [sample_position] else [].

(* ------------------------------------------------------------------ *)
(** * Properties *)

Example get_token_symbol_sui : get_token_symbol "0x2::sui::SUI" = "SUI".
Proof. reflexivity. Qed.
Example get_token_symbol_unknown : get_token_symbol "Unknown" = "UNKNOWN".
Proof. reflexivity. Qed.
Example py_int_str : py_int (JStr " -1_000 ") = Some (-1000)%Z.
Proof. reflexivity. Qed.
Example format_money : format_fixed 2 true (12345678 # 10) = "1,234,567.80".
Proof. reflexivity. Qed.
Example format_small : format_fixed 4 false (1 # 3) = "0.3333".
Proof. reflexivity. Qed.

(** ** Conversion rules *)

Section Conversion.

Variables (k v : json) (mid shares : Z) (name : option string).
Variables (prices : gmap string Q) (decs : gmap string Z) (aliases : gmap string string).
Hypotheses (Hk : py_int k = Some mid) (Hv : py_int v = Some shares).

Lemma collateral_amount_with (market : json) (ratio : Z) :
  read_xtoken_ratio market = Some ratio ->
  dict_get market "coin_type" (JDict []) =
    Some (match name with
          | Some n => JDict [("fields", JDict [("name", JStr n)])]
          | None => JDict [] end) ->
  exists d, parse_collateral_entry (collateral_entry k v) market prices decs aliases = Some d /\
    (amount d == share_amount shares ratio
                   (get_decimals (get_token_symbol (default "Unknown" name)) decs))%Q.
Proof.
  intros Hr Hct. unfold parse_collateral_entry. simpl. rewrite Hk, Hv. simpl.
  rewrite Hct. destruct name; simpl; rewrite Hr; simpl; eexists; split; reflexivity.
Qed.

End Conversion.

Lemma read_ratio_absent (name : option string) :
  read_xtoken_ratio (market_record name None) = Some (10 ^ 18)%Z.
Proof. destruct name; reflexivity. Qed.

Lemma read_ratio_plain (name : option string) (r : json) (ratio : Z) :
  py_int r = Some ratio -> read_xtoken_ratio (market_record name (Some r)) = Some ratio.
Proof.
  intros Hr. unfold read_xtoken_ratio, market_record.
  destruct name; simpl; destruct r; simpl in *; try discriminate; exact Hr.
Qed.

Lemma read_ratio_wrapped (name : option string) (r : json) :
  read_xtoken_ratio (market_record name (Some (JDict [("fields", JDict [("value", r)])]))) =
  py_int r.
Proof. destruct name; reflexivity. Qed.

Lemma read_ratio_wrapped_empty (name : option string) :
  read_xtoken_ratio (market_record name (Some (JDict []))) = Some (10 ^ 18)%Z.
Proof. destruct name; reflexivity. Qed.

Lemma market_record_coin_type (name : option string) (x : option json) :
  dict_get (market_record name x) "coin_type" (JDict []) =
    Some (match name with
          | Some n => JDict [("fields", JDict [("name", JStr n)])]
          | None => JDict [] end).
Proof. destruct name, x; reflexivity. Qed.

(** ** C1 *)

(** C1. A collateral entry is converted as
    [raw_shares * exchange_ratio / 10^18 / 10^decimals], the exchange ratio
    being [10^18] when the market record has none (no [xtoken_ratio] key,
    or a wrapped one without a value), and the supplied one otherwise (a
    plain value or [{"fields": {"value": ...}}]); a loan entry is converted
    as [raw_amount / 10^decimals].  [decimals] is the configured one of the
    entry's symbol (9 by default).  The entry with 500_000_000_000 shares,
    ratio [10^18], 9 decimals and price 3.50 gives amount 500 and USD value
    1750. *)
Theorem token_amount_conversion (k v : json) (mid shares : Z) (name : option string)
    (prices : gmap string Q) (decs : gmap string Z) (aliases : gmap string string) :
  py_int k = Some mid -> py_int v = Some shares ->
  let dec := get_decimals (get_token_symbol (default "Unknown" name)) decs in
  let share_rule ratio market := exists d,
      parse_collateral_entry (collateral_entry k v) market prices decs aliases = Some d /\
      (amount d == inject_Z (shares * ratio) / pow10 18 / pow10 dec)%Q in
  share_rule (10 ^ 18)%Z (market_record name None) /\
  share_rule (10 ^ 18)%Z (market_record name (Some (JDict []))) /\
  (forall (r : json) (ratio : Z), py_int r = Some ratio ->
     share_rule ratio (market_record name (Some r)) /\
     share_rule ratio (market_record name (Some (JDict [("fields", JDict [("value", r)])])))) /\
  (exists d, parse_loan_entry (loan_entry v name) prices decs aliases = Some d /\
     (amount d == inject_Z shares / pow10 dec)%Q) /\
  (exists d, parse_collateral_entry (collateral_entry (JInt 0) (JInt 500000000000))
       (market_record (Some "0x2::sui::SUI") (Some (JInt (10 ^ 18))))
       (<["SUI" := 7 # 2]> ∅) (<["SUI" := 9%Z]> ∅) ∅ = Some d /\
     (amount d == 500)%Q /\ (usd_value d == 1750)%Q).
Proof.
  intros Hk Hv dec share_rule. subst dec share_rule.
  repeat split.
  - apply (collateral_amount_with k v mid shares name); auto.
    + apply read_ratio_absent.
    + apply market_record_coin_type.
  - apply (collateral_amount_with k v mid shares name); auto.
    + apply read_ratio_wrapped_empty.
    + apply market_record_coin_type.
  - apply (collateral_amount_with k v mid shares name); auto.
    + apply read_ratio_plain; auto.
    + apply market_record_coin_type.
  - apply (collateral_amount_with k v mid shares name); auto.
    + rewrite read_ratio_wrapped; auto.
    + apply market_record_coin_type.
  - unfold parse_loan_entry. simpl. rewrite Hv.
    destruct name; simpl; eexists; split; reflexivity.
  - eexists; split; [reflexivity | split; vm_compute; reflexivity].
Qed.

(** Witness of [token_amount_conversion] at string-encoded key and shares. *)
Lemma token_amount_conversion_witness :
  py_int (JStr "7") = Some 7%Z /\ py_int (JStr "500000000000") = Some 500000000000%Z /\
  exists d, parse_loan_entry (loan_entry (JStr "500000000000") (Some "0x2::sui::SUI"))
              ∅ ∅ ∅ = Some d /\ (amount d == 500)%Q.
Proof.
  split; [reflexivity | split; [reflexivity |]].
  destruct (token_amount_conversion (JStr "7") (JStr "500000000000") 7 500000000000
              (Some "0x2::sui::SUI") ∅ ∅ ∅ eq_refl eq_refl)
    as (_ & _ & _ & (d & Hd & Ha) & _).
  exists d. split; [exact Hd |]. rewrite Ha. vm_compute. reflexivity.
Defined.

Open Scope Q_scope.

(** ** C2 *)

(** C2. For USD totals (non-negative: sums of amounts times prices),
    [calc_ltv] is 0 when the collateral total is 0, whatever the borrowed
    total, and [100 * borrowed / collateral] otherwise. *)
Theorem calc_ltv_cases (c b : Q) :
  0 <= c ->
  (c == 0 -> calc_ltv c b == 0) /\ (~ c == 0 -> calc_ltv c b == 100 * b / c).
Proof.
  intros Hc. unfold calc_ltv.
  destruct (Qle_bool c 0) eqn:E.
  - apply Qle_bool_iff in E. split; intros H.
    + reflexivity.
    + exfalso. apply H. apply Qle_antisym; assumption.
  - split; intros H.
    + exfalso. assert (Hle : c <= 0) by (rewrite H; apply Qle_refl).
      apply Qle_bool_iff in Hle. congruence.
    + field. exact H.
Qed.

Lemma calc_ltv_cases_witness :
  calc_ltv 0 5000 == 0 /\ calc_ltv 10000 8500 == 85.
Proof.
  assert (Hpos : 0 <= 10000) by (vm_compute; discriminate).
  assert (Hnz : ~ 10000 == 0) by (vm_compute; discriminate).
  split.
  - apply (proj1 (calc_ltv_cases 0 5000 (Qle_refl 0))). reflexivity.
  - rewrite (proj2 (calc_ltv_cases 10000 8500 Hpos) Hnz). vm_compute. reflexivity.
Defined.

(** ** C3 *)

(** C3. For USD totals, [calc_health_factor] is [inf] when the borrowed total
    is 0 and [(collateral * threshold / 100) / borrowed] otherwise; at
    collateral 10000, borrowed 8500 and threshold 85 it is exactly 1. *)
Theorem calc_health_factor_cases (c b lt : Q) :
  0 <= c -> 0 <= b ->
  (b == 0 -> calc_health_factor c b lt = Inf) /\
  (~ b == 0 -> exists q, calc_health_factor c b lt = Fin q /\ q == c * lt / 100 / b) /\
  (exists q, calc_health_factor 10000 8500 85 = Fin q /\ q == 1).
Proof.
  intros _ Hb. unfold calc_health_factor.
  split; [| split].
  - intros H. assert (Hle : b <= 0) by (rewrite H; apply Qle_refl).
    apply Qle_bool_iff in Hle. rewrite Hle. reflexivity.
  - intros H. destruct (Qle_bool b 0) eqn:E.
    + exfalso. apply Qle_bool_iff in E. apply H. apply Qle_antisym; assumption.
    + eexists. split; reflexivity.
  - eexists. split; [reflexivity | vm_compute; reflexivity].
Qed.

Lemma calc_health_factor_cases_witness :
  calc_health_factor 10000 0 85 = Inf /\
  exists q, calc_health_factor 10000 8500 85 = Fin q /\ q == 1.
Proof.
  assert (Hpos : 0 <= 10000) by (vm_compute; discriminate).
  destruct (calc_health_factor_cases 10000 0 85 Hpos (Qle_refl 0))
    as (H0 & _ & H1).
  split; [apply H0; reflexivity | exact H1].
Defined.

(** ** C4 *)

(** C4. The tier of an LTV is Critical from the critical threshold on, else
    Warning from the warning threshold on, else Healthy (a boundary value
    is in the higher tier); [check_and_alert] sends the critical alert, the
    warning alert or none by the same rule; 70 is Warning, 80 Critical and
    69.999 Healthy for thresholds 70 / 80. *)
Theorem alert_tier_rule (th : ThresholdsConfig) (ltv : Q) :
  (ltv_critical th <= ltv -> get_status th ltv = Critical) /\
  (ltv < ltv_critical th -> ltv_warning th <= ltv -> get_status th ltv = Warning) /\
  (ltv < ltv_critical th -> ltv < ltv_warning th -> get_status th ltv = Healthy) /\
  (forall now w proto position,
     alert_for th now w proto position =
     match get_status th (Models.ltv position) with
     | Critical =>
         [SendAlert (build_critical_alert now position (address w) (label w) proto (chain w))
            "🚨 CRITICAL: Liquidation Risk!"]
     | Warning =>
         [SendAlert (build_warning_alert now position (address w) (label w) proto (chain w))
            "⚠️ WARNING: High LTV"]
     | Healthy => []
     end) /\
  get_status thresholds_70_80 70 = Warning /\
  get_status thresholds_70_80 80 = Critical /\
  get_status thresholds_70_80 (69999 # 1000) = Healthy.
Proof.
  unfold get_status.
  split; [| split; [| split; [| split]]].
  - intros H. apply Qle_bool_iff in H. rewrite H. reflexivity.
  - intros H1 H2. destruct (Qle_bool (ltv_critical th) ltv) eqn:E.
    + apply Qle_bool_iff in E. exfalso. apply (Qlt_not_le _ _ H1 E).
    + apply Qle_bool_iff in H2. rewrite H2. reflexivity.
  - intros H1 H2.
    destruct (Qle_bool (ltv_critical th) ltv) eqn:E.
    + apply Qle_bool_iff in E. exfalso. apply (Qlt_not_le _ _ H1 E).
    + destruct (Qle_bool (ltv_warning th) ltv) eqn:E'.
      * apply Qle_bool_iff in E'. exfalso. apply (Qlt_not_le _ _ H2 E').
      * reflexivity.
  - intros now w proto position. unfold alert_for.
    destruct (Qle_bool (ltv_critical th) (Models.ltv position)); [reflexivity |].
    destruct (Qle_bool (ltv_warning th) (Models.ltv position)); reflexivity.
  - repeat split; reflexivity.
Qed.

(** ** C5 *)

(** C5. [resolve_price] returns the symbol's own price when it is present
    and non-zero; when it is absent or 0 and the symbol has an alias, the
    alias's price, 0 when that is absent; with no alias, the own price or
    0.  [resolve_price("XBTC", {"BTC": 100000}, {"XBTC": "BTC"}) == 100000]
    and [resolve_price("DOGE", {}, {}) == 0]. *)
Theorem resolve_price_fallback (sym : string) (prices : gmap string Q)
    (aliases : gmap string string) :
  (forall p, prices !! sym = Some p -> ~ p == 0 -> resolve_price sym prices aliases = p) /\
  (forall a, aliases !! sym = Some a ->
     (forall p, prices !! sym = Some p -> p == 0) ->
     resolve_price sym prices aliases = default 0 (prices !! a)) /\
  (aliases !! sym = None -> resolve_price sym prices aliases = default 0 (prices !! sym)) /\
  resolve_price "XBTC" (<["BTC" := 100000]> ∅) (<["XBTC" := "BTC"]> ∅) = 100000 /\
  resolve_price "DOGE" ∅ ∅ = 0.
Proof.
  unfold resolve_price.
  split; [| split; [| split; [| split]]].
  - intros p Hp Hnz. rewrite Hp. simpl.
    destruct (Qeq_bool p 0) eqn:E; [| reflexivity].
    apply Qeq_bool_iff in E. contradiction.
  - intros a Ha Hz. rewrite Ha.
    destruct (prices !! sym) as [p |] eqn:Hp; simpl.
    + rewrite (proj2 (Qeq_bool_iff p 0) (Hz p eq_refl)). reflexivity.
    + reflexivity.
  - intros Ha. rewrite Ha. destruct (Qeq_bool _ 0); reflexivity.
  - reflexivity.
  - reflexivity.
Qed.

(** ** C8 *)

Lemma pow10_pos (n : Z) : 0 < pow10 n.
Proof. apply Qpower_0_lt. reflexivity. Qed.

(** C8. For non-negative shares, exchange ratio and decimals, the share
    conversion [shares * ratio / 10^18 / 10^decimals] is non-negative and
    non-decreasing in the shares, strictly increasing when the ratio is
    positive. *)
Theorem share_amount_monotone (s1 s2 r dec : Z) :
  (0 <= s1)%Z -> (0 <= r)%Z -> (0 <= dec)%Z -> (s1 <= s2)%Z ->
  0 <= share_amount s1 r dec /\
  share_amount s1 r dec <= share_amount s2 r dec /\
  ((0 < r)%Z -> (s1 < s2)%Z -> share_amount s1 r dec < share_amount s2 r dec).
Proof.
  intros H1 Hr _ H12. unfold share_amount, Qdiv.
  assert (Ha : 0 < / pow10 18) by (apply Qinv_lt_0_compat, pow10_pos).
  assert (Hb : 0 < / pow10 dec) by (apply Qinv_lt_0_compat, pow10_pos).
  assert (Hz : forall x y : Z, (x <= y)%Z -> inject_Z x <= inject_Z y)
    by (intros x y Hxy; unfold Qle; simpl; lia).
  split; [| split].
  - apply Qmult_le_0_compat; [apply Qmult_le_0_compat |].
    + apply (Hz 0%Z). nia.
    + apply Qlt_le_weak, Ha.
    + apply Qlt_le_weak, Hb.
  - apply Qmult_le_compat_r; [apply Qmult_le_compat_r |].
    + apply Hz. nia.
    + apply Qlt_le_weak, Ha.
    + apply Qlt_le_weak, Hb.
  - intros Hr' H12'.
    apply Qmult_lt_compat_r; [assumption |]. apply Qmult_lt_compat_r; [assumption |].
    unfold Qlt; simpl. nia.
Qed.

Lemma share_amount_monotone_witness :
  0 <= share_amount 500000000000 (10 ^ 18) 9 /\
  share_amount 500000000000 (10 ^ 18) 9 <= share_amount 600000000000 (10 ^ 18) 9.
Proof.
  destruct (share_amount_monotone 500000000000 600000000000 (10 ^ 18) 9)
    as (H0 & H1 & _); try lia.
  split; assumption.
Defined.

(** ** C6 *)

Lemma parse_collateral_entry_empty_market (k v : json) (mid shares : Z)
    (prices : gmap string Q) (decs : gmap string Z) (aliases : gmap string string) :
  py_int k = Some mid -> py_int v = Some shares ->
  parse_collateral_entry (collateral_entry k v) (JDict []) prices decs aliases =
  Some {| symbol := "UNKNOWN"; market_id := Some mid;
          amount := share_amount shares (10 ^ 18) (get_decimals "UNKNOWN" decs);
          price := resolve_price "UNKNOWN" prices aliases;
          usd_value := share_amount shares (10 ^ 18) (get_decimals "UNKNOWN" decs) *
                       resolve_price "UNKNOWN" prices aliases |}.
Proof. intros Hk Hv. unfold parse_collateral_entry. simpl. rewrite Hk, Hv. reflexivity. Qed.

(** Counterexample to C6: the entry of an empty market record is given the
    symbol ["UNKNOWN"], not ["Unknown"]: [get_token_symbol] upper-cases the
    default coin type; and its price is [resolve_price("UNKNOWN", ...)],
    which is not 0 when the configured aliases map ["UNKNOWN"] to a priced
    token, so such an entry then adds a non-zero USD value. *)
Lemma empty_market_symbol_upper_cased :
  (exists d, parse_collateral_entry (collateral_entry (JInt 3) (JInt 1000000000))
               (JDict []) ∅ ∅ ∅ = Some d /\ symbol d <> "Unknown") /\
  (exists d, parse_collateral_entry (collateral_entry (JInt 3) (JInt 1000000000))
               (JDict []) (<["SUI" := 3]> ∅) ∅ (<["UNKNOWN" := "SUI"]> ∅) = Some d /\
             ~ price d == 0 /\ ~ usd_value d == 0).
Proof.
  split; eexists; (split; [reflexivity |]); [discriminate |].
  split; vm_compute; discriminate.
Qed.

(** C6 (amended). When the market lookup of a collateral entry yields the
    empty record, the entry is parsed with symbol ["UNKNOWN"], exchange
    ratio [10^18] and the decimals of ["UNKNOWN"] (9 when none are
    configured); its price is [resolve_price("UNKNOWN", ...)], which is 0
    when the price table has no ["UNKNOWN"] entry and no alias of it is
    priced, and then the entry adds 0 USD; the collateral loop goes on with
    the remaining entries. *)
Theorem empty_market_entry_contributes_zero (rpc : Z -> option json)
    (prices : gmap string Q) (cfg : ProtocolConfig) (k v : json) (mid shares : Z)
    (rest : list json) (market_cache : gmap Z json) (details : list entry_detail)
    (total : Q) :
  py_int k = Some mid -> py_int v = Some shares ->
  fst (get_market_info rpc market_cache mid) = JDict [] ->
  exists d,
    symbol d = "UNKNOWN" /\
    amount d = share_amount shares (10 ^ 18) (get_decimals "UNKNOWN" (token_decimals cfg)) /\
    (token_decimals cfg !! "UNKNOWN" = None ->
       get_decimals "UNKNOWN" (token_decimals cfg) = 9%Z) /\
    price d = resolve_price "UNKNOWN" prices (token_aliases cfg) /\
    usd_value d = amount d * price d /\
    (prices !! "UNKNOWN" = None ->
     (forall alias, token_aliases cfg !! "UNKNOWN" = Some alias -> prices !! alias = None) ->
     price d = 0 /\ usd_value d == 0) /\
    parse_collaterals rpc prices cfg (collateral_entry k v :: rest) market_cache details total =
    parse_collaterals rpc prices cfg rest (snd (get_market_info rpc market_cache mid))
      (details ++ [d]) (total + usd_value d).
Proof.
  intros Hk Hv Hm.
  assert (Hpr : prices !! "UNKNOWN" = None ->
                (forall alias, token_aliases cfg !! "UNKNOWN" = Some alias ->
                               prices !! alias = None) ->
                resolve_price "UNKNOWN" prices (token_aliases cfg) = 0).
  { intros Hp Ha. unfold resolve_price. rewrite Hp. simpl.
    destruct (token_aliases cfg !! "UNKNOWN") as [alias |] eqn:E; [| reflexivity].
    rewrite (Ha alias eq_refl). reflexivity. }
  eexists. split; [| split; [| split; [| split; [| split; [| split]]]]].
  7: { simpl. rewrite Hk. simpl.
       destruct (get_market_info rpc market_cache mid) as [mi c1] eqn:E.
       simpl in Hm. subst mi.
       rewrite (parse_collateral_entry_empty_market k v mid shares); auto. }
  all: simpl; try reflexivity.
  - intros Hd. unfold get_decimals. rewrite Hd. reflexivity.
  - intros Hp Ha. rewrite (Hpr Hp Ha). split; [reflexivity | ring].
Qed.

(** The first of two collateral entries sits in a market the table does not
    answer: it adds 0 USD and the second entry is parsed next. *)
Lemma empty_market_entry_contributes_zero_witness :
  exists d,
    symbol d = "UNKNOWN" /\ price d = 0 /\ usd_value d == 0 /\
    parse_collaterals (fun _ => None) (<["SUI" := 3]> ∅)
      {| token_decimals := ∅; token_aliases := <["XBTC" := "BTC"]> ∅;
         liquidation_threshold := 85 |}
      [collateral_entry (JStr "3") (JStr "1000000000");
       collateral_entry (JStr "4") (JStr "2000000000")] ∅ [] 0 =
    parse_collaterals (fun _ => None) (<["SUI" := 3]> ∅)
      {| token_decimals := ∅; token_aliases := <["XBTC" := "BTC"]> ∅;
         liquidation_threshold := 85 |}
      [collateral_entry (JStr "4") (JStr "2000000000")] ∅ [d] (0 + usd_value d).
Proof.
  destruct (empty_market_entry_contributes_zero (fun _ => None) (<["SUI" := 3]> ∅)
              {| token_decimals := ∅; token_aliases := <["XBTC" := "BTC"]> ∅;
                 liquidation_threshold := 85 |}
              (JStr "3") (JStr "1000000000") 3 1000000000
              [collateral_entry (JStr "4") (JStr "2000000000")] ∅ [] 0)
    as (d & Hs & _ & _ & _ & _ & Hz & Hrest); [reflexivity | reflexivity | reflexivity |].
  destruct Hz as [Hp Hu]; [reflexivity | intros alias Ha; discriminate Ha |].
  exists d. split; [exact Hs | split; [exact Hp | split; [exact Hu | exact Hrest]]].
Defined.

(** ** C7 *)

Lemma parse_collaterals_total (rpc : Z -> option json) (prices : gmap string Q)
    (cfg : ProtocolConfig) (entries : list json) :
  forall market_cache details total ds t market_cache',
  total = py_sum (map usd_value details) ->
  parse_collaterals rpc prices cfg entries market_cache details total =
    (Some (ds, t), market_cache') ->
  t = py_sum (map usd_value ds).
Proof.
  induction entries as [| entry rest IH]; intros market_cache details total ds t c' Ht H.
  - simpl in H. inversion H; subst. reflexivity.
  - simpl in H.
    destruct (f ← dict_get entry "fields" (JDict []);
              k ← dict_get f "key" (JInt 0); py_int k) as [mid |]; [| discriminate].
    destruct (get_market_info rpc market_cache mid) as [mi c1].
    destruct (parse_collateral_entry _ _ _ _ _) as [d |]; [| discriminate].
    apply (IH c1 (details ++ [d])%list (total + usd_value d) ds t c'); [| exact H].
    unfold py_sum. rewrite map_app, fold_left_app. simpl. rewrite Ht. reflexivity.
Qed.

Lemma parse_loans_total (prices : gmap string Q) (cfg : ProtocolConfig) (entries : list json) :
  forall details total ds t,
  total = py_sum (map usd_value details) ->
  parse_loans prices cfg entries details total = Some (ds, t) ->
  t = py_sum (map usd_value ds).
Proof.
  induction entries as [| entry rest IH]; intros details total ds t Ht H.
  - simpl in H. inversion H; subst. reflexivity.
  - simpl in H.
    destruct (parse_loan_entry _ _ _ _) as [d |]; [| discriminate]. simpl in H.
    apply (IH (details ++ [d])%list (total + usd_value d) ds t); [| exact H].
    unfold py_sum. rewrite map_app, fold_left_app. simpl. rewrite Ht. reflexivity.
Qed.

Lemma usd_values_of_assets (ds : list entry_detail) :
  map Models.usd_value (map to_asset_detail ds) = map usd_value ds.
Proof. rewrite map_map. reflexivity. Qed.

(** C7. Every position record produced by [_parse_position] has
    [collateral_value] equal to [sum(a.usd_value for a in collateral_assets)]
    and [borrowed_value] equal to the same sum over [borrowed_assets]: the
    same additions in the same order, so the difference is 0, below every
    tolerance. *)
Theorem position_totals_are_sums (cfg : ProtocolConfig) (rpc : Z -> option json)
    (position_data : json) (prices : gmap string Q) (market_cache : gmap Z json)
    (p : Models.PositionData) (market_cache' : gmap Z json) :
  parse_position cfg rpc position_data prices market_cache = (Some p, market_cache') ->
  Models.collateral_value p = py_sum (map Models.usd_value (Models.collateral_assets p)) /\
  Models.borrowed_value p = py_sum (map Models.usd_value (Models.borrowed_assets p)) /\
  (forall eps, 0 < eps ->
     Qabs (Models.collateral_value p -
           py_sum (map Models.usd_value (Models.collateral_assets p))) < eps /\
     Qabs (Models.borrowed_value p -
           py_sum (map Models.usd_value (Models.borrowed_assets p))) < eps).
Proof.
  intros H. unfold parse_position in H.
  destruct (c ← dict_get position_data "collaterals" (JDict []);
            cf ← dict_get c "fields" (JDict []);
            cc ← dict_get cf "contents" (JList []); py_iter cc)
    as [collaterals_raw |]; [| discriminate].
  destruct (parse_collaterals rpc prices cfg collaterals_raw market_cache [] 0)
    as [[[cds tc] |] c1] eqn:Ec; [| discriminate].
  destruct (l ← dict_get position_data "loans" (JList []);
            loans_raw ← py_iter l; parse_loans prices cfg loans_raw [] 0)
    as [[lds tl] |] eqn:El; [| discriminate].
  inversion H; subst p. simpl. clear H.
  rewrite !usd_values_of_assets.
  assert (Htc : tc = py_sum (map usd_value cds))
    by (apply (parse_collaterals_total rpc prices cfg collaterals_raw market_cache [] 0 cds tc c1);
        [reflexivity | exact Ec]).
  assert (Htl : tl = py_sum (map usd_value lds)).
  { destruct (dict_get position_data "loans" (JList [])) as [l |]; [| discriminate].
    simpl in El. destruct (py_iter l) as [loans_raw |]; [| discriminate].
    simpl in El. apply (parse_loans_total prices cfg loans_raw [] 0 lds tl); [reflexivity | exact El]. }
  rewrite <- Htc, <- Htl.
  split; [reflexivity | split; [reflexivity |]].
  assert (E : forall x, Qabs (x - x) == 0)
    by (intros x; unfold Qminus; rewrite Qplus_opp_r; reflexivity).
  intros eps Heps. simpl. split; [rewrite (E tc) | rewrite (E tl)]; exact Heps.
Qed.

Lemma position_totals_are_sums_witness :
  exists p c,
    parse_position sample_config sample_rpc sample_position_data sample_prices ∅ = (Some p, c) /\
    Models.collateral_value p = py_sum (map Models.usd_value (Models.collateral_assets p)) /\
    Models.borrowed_value p = py_sum (map Models.usd_value (Models.borrowed_assets p)).
Proof.
  destruct (parse_position sample_config sample_rpc sample_position_data sample_prices ∅)
    as [[p |] c] eqn:E.
  - exists p, c. split; [reflexivity |].
    destruct (position_totals_are_sums _ _ _ _ _ p c E) as (H1 & H2 & _).
    split; assumption.
  - vm_compute in E. discriminate.
Defined.

(** The sample position is valued at 1750 USD of collateral and 1 USD of debt. *)
Example sample_position_valued :
  exists p c,
    parse_position sample_config sample_rpc sample_position_data sample_prices ∅ = (Some p, c) /\
    Models.collateral_value p == 1750 /\ Models.borrowed_value p == 1.
Proof. do 2 eexists. split; [reflexivity | split; vm_compute; reflexivity]. Qed.

(** ** C9 *)

Lemma flat_map_all_nil {A B} (f : A -> list B) (l : list A) :
  (forall x, In x l -> f x = []) -> flat_map f l = [].
Proof.
  induction l as [| x l IH]; intros H; [reflexivity |].
  simpl. rewrite (H x (or_introl eq_refl)). apply IH. intros y Hy. apply H. right. exact Hy.
Qed.

(** Counterexample to C9: with one wallet holding a position and another
    monitored wallet holding none, the daily report has no "no active
    positions" message and does not mention the empty wallet at all. *)
Lemma daily_report_omits_empty_pair :
  sample_fetch "alphalend" (address wallet_spare) sample_prices = [] /\
  contains (daily_report thresholds_70_80 {["alphalend"]} sample_fetch sample_prices
              "2026-01-01 00:00:00" [wallet_main; wallet_spare])
           "No active positions" = false /\
  contains (daily_report thresholds_70_80 {["alphalend"]} sample_fetch sample_prices
              "2026-01-01 00:00:00" [wallet_main; wallet_spare])
           "spare" = false.
Proof. split; [reflexivity | split; vm_compute; reflexivity]. Qed.

Lemma omap_list_cons {A B} (f : A -> option B) (x : A) (l : list A) :
  omap f (x :: l) = match f x with Some y => y :: omap f l | None => omap f l end.
Proof. reflexivity. Qed.

Lemma flat_map_nil_in {A B} (f : A -> list B) (l : list A) (x : A) :
  flat_map f l = [] -> In x l -> f x = [].
Proof.
  induction l as [| y l IH]; intros H Hin; [destruct Hin |].
  simpl in H. apply app_eq_nil in H as [H1 H2].
  destruct Hin as [-> | Hin]; [exact H1 | exact (IH H2 Hin)].
Qed.

Lemma wallet_lines_without_protocol (th : ThresholdsConfig) (protos : gset string)
    (fetch : string -> string -> gmap string Q -> list Models.PositionData)
    (price_table : gmap string Q) (w : WalletConfig) (proto_name : string) :
  fetch proto_name (address w) price_table = [] ->
  wallet_lines th protos fetch price_table (without_protocol w proto_name) =
  wallet_lines th protos fetch price_table w.
Proof.
  intros Hf. unfold wallet_lines, without_protocol. cbn [protocols address].
  induction (protocols w) as [| p ps IH]; [reflexivity |].
  cbn [List.filter flat_map].
  destruct (String.eqb p proto_name) eqn:E; cbn [negb].
  - apply String.eqb_eq in E. subst p. rewrite IH, Hf.
    destruct (decide (proto_name ∈ protos)); reflexivity.
  - cbn [flat_map]. rewrite IH. reflexivity.
Qed.

Lemma report_sections_without_protocol (th : ThresholdsConfig) (protos : gset string)
    (fetch : string -> string -> gmap string Q -> list Models.PositionData)
    (price_table : gmap string Q) (ws1 ws2 : list WalletConfig) (w : WalletConfig)
    (proto_name : string) :
  fetch proto_name (address w) price_table = [] ->
  report_sections th protos fetch price_table (ws1 ++ without_protocol w proto_name :: ws2)%list =
  report_sections th protos fetch price_table (ws1 ++ w :: ws2)%list.
Proof.
  intros Hf. unfold report_sections.
  induction ws1 as [| w1 ws1 IH]; cbn [app].
  - rewrite !omap_list_cons.
    assert (Hs : wallet_section th protos fetch price_table (without_protocol w proto_name) =
                 wallet_section th protos fetch price_table w).
    { unfold wallet_section. rewrite (wallet_lines_without_protocol th protos fetch price_table
                                        w proto_name Hf).
      reflexivity. }
    rewrite Hs. reflexivity.
  - rewrite !omap_list_cons, IH. reflexivity.
Qed.

Lemma report_sections_heads (th : ThresholdsConfig) (protos : gset string)
    (fetch : string -> string -> gmap string Q -> list Models.PositionData)
    (price_table : gmap string Q) (ws : list WalletConfig) (s : string) :
  In s (report_sections th protos fetch price_table ws) -> exists t, s = "━━ " ++ t.
Proof.
  unfold report_sections. induction ws as [| w ws IH]; [intros [] |].
  rewrite omap_list_cons. destruct (wallet_section th protos fetch price_table w) eqn:E.
  - intros [<- | Hin]; [| exact (IH Hin)].
    unfold wallet_section in E. destruct (wallet_lines th protos fetch price_table w);
      [discriminate |].
    injection E as <-. eexists. reflexivity.
  - exact IH.
Qed.

Lemma report_sections_nil_in (th : ThresholdsConfig) (protos : gset string)
    (fetch : string -> string -> gmap string Q -> list Models.PositionData)
    (price_table : gmap string Q) (ws : list WalletConfig) (w : WalletConfig) :
  report_sections th protos fetch price_table ws = [] -> In w ws ->
  wallet_section th protos fetch price_table w = None.
Proof.
  unfold report_sections. induction ws as [| w' ws IH]; [intros _ [] |].
  rewrite omap_list_cons. destruct (wallet_section th protos fetch price_table w') eqn:E;
    [discriminate |].
  intros H [-> | Hin]; [exact E | exact (IH H Hin)].
Qed.

(** C9 (amended). [check_and_alert] sends, for every wallet x protocol pair
    with an adapter whose fetch yields no position, a log naming the pair
    with "No active positions found."; the daily report adds no line for
    such a pair (it is the same report as with the pair not monitored),
    leaves out a wallet all of whose pairs are empty, and its body is
    "No active positions found." exactly when no monitored pair yields a
    position. *)
Theorem empty_pair_reporting (th : ThresholdsConfig) (protos : gset string)
    (fetch : string -> string -> gmap string Q -> list Models.PositionData)
    (price_table : gmap string Q) (now_str : string) (wallets : list WalletConfig) :
  (forall w proto, In w wallets -> In proto (protocols w) -> proto ∈ protos ->
     fetch proto (address w) price_table = [] ->
     In (SendLog (no_positions_log now_str w proto) false)
        (check_and_alert th protos fetch price_table now_str wallets)) /\
  (forall ws1 w ws2 proto, wallets = (ws1 ++ w :: ws2)%list ->
     fetch proto (address w) price_table = [] ->
     daily_report th protos fetch price_table now_str wallets =
     daily_report th protos fetch price_table now_str
       (ws1 ++ without_protocol w proto :: ws2)%list) /\
  (forall w, (forall proto, In proto (protocols w) -> proto ∈ protos ->
                fetch proto (address w) price_table = []) ->
     wallet_section th protos fetch price_table w = None) /\
  (daily_report th protos fetch price_table now_str wallets =
   "📋 Daily DeFi Position Report" ++ nl ++ nl ++ "No active positions found." ++
   nl ++ nl ++ now_str ++ " UTC" <->
   (forall w proto, In w wallets -> In proto (protocols w) -> proto ∈ protos ->
      fetch proto (address w) price_table = [])).
Proof.
  assert (Hsec : forall w, (forall proto, In proto (protocols w) -> proto ∈ protos ->
                              fetch proto (address w) price_table = []) ->
                 wallet_section th protos fetch price_table w = None).
  { intros w Hw. unfold wallet_section, wallet_lines.
    rewrite flat_map_all_nil; [reflexivity |].
    intros proto Hin. destruct (decide (proto ∈ protos)) as [Ha |]; [| reflexivity].
    rewrite (Hw proto Hin Ha). reflexivity. }
  split; [| split; [| split; [exact Hsec |]]].
  - intros w proto Hw Hp Ha Hf. unfold check_and_alert.
    apply in_flat_map. exists w. split; [exact Hw |].
    apply in_flat_map. exists proto. split; [exact Hp |].
    unfold check_pair. destruct (decide (proto ∈ protos)); [| contradiction].
    rewrite Hf. left. reflexivity.
  - intros ws1 w ws2 proto -> Hf. unfold daily_report.
    rewrite (report_sections_without_protocol th protos fetch price_table ws1 ws2 w proto Hf).
    reflexivity.
  - split.
    + intros H w proto Hw Hp Ha.
      assert (Hnil : report_sections th protos fetch price_table wallets = []).
      { destruct (report_sections th protos fetch price_table wallets) as [| s ss] eqn:E;
          [reflexivity | exfalso].
        destruct (report_sections_heads th protos fetch price_table wallets s)
          as [t ->]; [rewrite E; left; reflexivity |].
        unfold daily_report in H. rewrite E in H.
        apply (f_equal (String.get
                 (String.length ("📋 Daily DeFi Position Report" ++ nl ++ nl)))) in H.
        destruct ss; vm_compute in H; discriminate H. }
      pose proof (report_sections_nil_in th protos fetch price_table wallets w Hnil Hw) as Hs.
      unfold wallet_section in Hs.
      destruct (wallet_lines th protos fetch price_table w) eqn:El; [| discriminate Hs].
      pose proof (flat_map_nil_in _ _ proto El Hp) as Hx. cbv beta in Hx.
      destruct (decide (proto ∈ protos)); [| contradiction].
      apply map_eq_nil in Hx. exact Hx.
    + intros Hall. unfold daily_report.
      assert (Hnil : report_sections th protos fetch price_table wallets = []).
      { unfold report_sections. induction wallets as [| w ws IH]; [reflexivity |].
        rewrite omap_list_cons. rewrite (Hsec w); [| intros; apply Hall; simpl; auto].
        apply IH. intros; apply Hall; simpl; auto. }
      rewrite Hnil. reflexivity.
Qed.

(** The spare wallet holds nothing: the cycle logs "No active positions
    found." for it, and the daily report is the one without the pair. *)
Lemma empty_pair_reporting_witness :
  In (SendLog (no_positions_log "2026-01-01 00:00:00" wallet_spare "alphalend") false)
     (check_and_alert thresholds_70_80 {["alphalend"]} sample_fetch sample_prices
        "2026-01-01 00:00:00" [wallet_main; wallet_spare]) /\
  daily_report thresholds_70_80 {["alphalend"]} sample_fetch sample_prices
    "2026-01-01 00:00:00" [wallet_main; wallet_spare] =
  daily_report thresholds_70_80 {["alphalend"]} sample_fetch sample_prices
    "2026-01-01 00:00:00" [wallet_main; without_protocol wallet_spare "alphalend"].
Proof.
  destruct (empty_pair_reporting thresholds_70_80 {["alphalend"]} sample_fetch
              sample_prices "2026-01-01 00:00:00" [wallet_main; wallet_spare])
    as (H1 & H2 & _).
  split.
  - apply H1; simpl; auto; set_solver.
  - exact (H2 [wallet_main] wallet_spare [] "alphalend" eq_refl eq_refl).
Defined.

(** ** C10 *)

(** Counterexample to C10: a non-empty RPC answer whose market fields are
    empty is cached as the empty record. *)
Lemma empty_market_record_cached :
  let '(market, cache) :=
    get_market_info
      (fun _ => Some (JDict [("content", JDict [("fields",
                   JDict [("value", JDict [("fields", JDict [])])])])]))
      ∅ 3%Z in
  market = JDict [] /\ cache !! 3%Z = Some (JDict []).
Proof. split; reflexivity. Qed.

(** C10 (amended). A lookup of a cached id returns the cached record and
    leaves the cache as it is; a lookup whose RPC call raises or answers an
    empty (falsy) result returns [{}] and caches nothing, so the next call
    asks again; a non-empty answer caches the record found at
    [content.fields.value.fields], even an empty one, unless reaching it
    raises; no lookup changes an entry already cached. *)
Theorem market_cache_behaviour (rpc : Z -> option json) (market_cache : gmap Z json)
    (mid : Z) :
  (forall m, market_cache !! mid = Some m ->
     get_market_info rpc market_cache mid = (m, market_cache)) /\
  (market_cache !! mid = None ->
     (rpc mid = None \/ exists r, rpc mid = Some r /\ truthy r = false) ->
     get_market_info rpc market_cache mid = (JDict [], market_cache)) /\
  (forall r market, market_cache !! mid = None -> rpc mid = Some r -> truthy r = true ->
     extract_market r = Some market ->
     get_market_info rpc market_cache mid = (market, <[mid := market]> market_cache)) /\
  (forall r, market_cache !! mid = None -> rpc mid = Some r -> truthy r = true ->
     extract_market r = None ->
     get_market_info rpc market_cache mid = (JDict [], market_cache)) /\
  (forall mid' m, market_cache !! mid' = Some m ->
     snd (get_market_info rpc market_cache mid) !! mid' = Some m).
Proof.
  unfold get_market_info.
  split; [| split; [| split; [| split]]].
  - intros m Hm. rewrite Hm. reflexivity.
  - intros Hn [Hr | (r & Hr & Ht)]; rewrite Hn, Hr; [reflexivity |].
    rewrite Ht. reflexivity.
  - intros r market Hn Hr Ht He. rewrite Hn, Hr, Ht, He. reflexivity.
  - intros r Hn Hr Ht He. rewrite Hn, Hr, Ht, He. reflexivity.
  - intros mid' m Hm.
    destruct (market_cache !! mid) as [m0 |] eqn:Hc; [exact Hm |].
    destruct (rpc mid) as [r |]; [| exact Hm].
    destruct (negb (truthy r)); [exact Hm |].
    destruct (extract_market r) as [market |]; [| exact Hm].
    simpl. rewrite lookup_insert_ne; [exact Hm |].
    intros ->. congruence.
Qed.

(* ------------------------------------------------------------------ *)
(** * Further properties of the code *)

(** ** Range of the LTV *)

(** For non-negative totals the LTV is non-negative, and with a positive
    collateral total it is below 100 exactly when the borrowed total is
    below the collateral total. *)
Theorem calc_ltv_range (c b : Q) :
  0 <= c -> 0 <= b ->
  0 <= calc_ltv c b /\ (0 < c -> (calc_ltv c b < 100 <-> b < c)).
Proof.
  intros Hc Hb. unfold calc_ltv.
  destruct (Qle_bool c 0) eqn:Ec.
  - split; [apply Qle_refl |].
    intros Hc'. apply Qle_bool_iff in Ec. exfalso. exact (Qlt_not_le _ _ Hc' Ec).
  - assert (Hc' : 0 < c).
    { apply Qnot_le_lt. intros H. apply Qle_bool_iff in H. congruence. }
    assert (Hcn : ~ c == 0) by (intros E; rewrite E in Hc'; discriminate).
    split.
    + apply Qmult_le_0_compat; [| discriminate].
      apply Qmult_le_0_compat; [exact Hb |].
      apply Qlt_le_weak, Qinv_lt_0_compat, Hc'.
    + intros _. rewrite <- (Qmult_lt_r _ _ _ Hc').
      assert (E : b / c * 100 * c == 100 * b) by (field; exact Hcn).
      rewrite E. apply Qmult_lt_l. reflexivity.
Qed.

Lemma calc_ltv_range_witness :
  0 <= calc_ltv 10000 9000 /\ (calc_ltv 10000 9000 < 100 <-> 9000 < 10000).
Proof.
  destruct (calc_ltv_range 10000 9000) as [H1 H2]; [discriminate | discriminate |].
  split; [exact H1 | apply H2; reflexivity].
Defined.

(** ** Alert tiers *)

(** A higher LTV never gets a lower tier, whatever the thresholds. *)
Theorem get_status_monotone (th : ThresholdsConfig) (ltv1 ltv2 : Q) :
  ltv1 <= ltv2 -> (tier_rank (get_status th ltv1) <= tier_rank (get_status th ltv2))%nat.
Proof.
  intros H12. unfold get_status.
  destruct (Qle_bool (ltv_critical th) ltv1) eqn:C1.
  - apply Qle_bool_iff in C1.
    rewrite (proj2 (Qle_bool_iff _ _) (Qle_trans _ _ _ C1 H12)). simpl. lia.
  - destruct (Qle_bool (ltv_warning th) ltv1) eqn:W1; [| simpl; lia].
    apply Qle_bool_iff in W1.
    rewrite (proj2 (Qle_bool_iff (ltv_warning th) ltv2) (Qle_trans _ _ _ W1 H12)).
    destruct (Qle_bool (ltv_critical th) ltv2); simpl; lia.
Qed.

Lemma get_status_monotone_witness :
  (tier_rank (get_status thresholds_70_80 65) <= tier_rank (get_status thresholds_70_80 75))%nat.
Proof. apply get_status_monotone. discriminate. Defined.

(** When the critical threshold is not above the warning threshold, no LTV
    is in the Warning tier and [check_and_alert] never sends the warning
    alert. *)
Theorem misordered_thresholds_no_warning (th : ThresholdsConfig) :
  ltv_critical th <= ltv_warning th ->
  (forall ltv, get_status th ltv <> Warning) /\
  (forall now w proto_name position message,
     ~ In (SendAlert message "⚠️ WARNING: High LTV") (alert_for th now w proto_name position)).
Proof.
  intros Hcw.
  assert (Hno : forall ltv, Qle_bool (ltv_critical th) ltv = false ->
                            Qle_bool (ltv_warning th) ltv = false).
  { intros ltv Hc. destruct (Qle_bool (ltv_warning th) ltv) eqn:Hw; [| reflexivity].
    apply Qle_bool_iff in Hw.
    rewrite (proj2 (Qle_bool_iff _ _) (Qle_trans _ _ _ Hcw Hw)) in Hc. discriminate. }
  split.
  - intros ltv. unfold get_status.
    destruct (Qle_bool (ltv_critical th) ltv) eqn:Hc; [discriminate |].
    rewrite (Hno ltv Hc). discriminate.
  - intros now w proto_name position message. unfold alert_for.
    destruct (Qle_bool (ltv_critical th) (Models.ltv position)) eqn:Hc.
    + intros [H | []]. inversion H.
    + rewrite (Hno _ Hc). intros [].
Qed.

Lemma misordered_thresholds_no_warning_witness :
  get_status {| ltv_warning := 90; ltv_critical := 80 |} 85 <> Warning.
Proof.
  apply (proj1 (misordered_thresholds_no_warning {| ltv_warning := 90; ltv_critical := 80 |}
                  ltac:(discriminate))).
Defined.

(** ** What one cycle of [check_and_alert] sends *)

Definition list_sum_map {A} (f : A -> nat) (l : list A) : nat :=
  fold_right (fun x acc => (f x + acc)%nat) 0%nat l.

Lemma length_filter_flat_map {A B} (p : B -> bool) (g : A -> list B) (l : list A) :
  length (List.filter p (flat_map g l)) = list_sum_map (fun x => length (List.filter p (g x))) l.
Proof.
  induction l as [| x l IH]; [reflexivity |].
  simpl. rewrite List.filter_app, length_app, IH. reflexivity.
Qed.

Lemma length_flat_map {A B} (g : A -> list B) (l : list A) :
  length (flat_map g l) = list_sum_map (fun x => length (g x)) l.
Proof.
  induction l as [| x l IH]; [reflexivity |].
  simpl. rewrite length_app, IH. reflexivity.
Qed.

Lemma list_sum_map_ext {A} (f g : A -> nat) (l : list A) :
  (forall x, In x l -> f x = g x) -> list_sum_map f l = list_sum_map g l.
Proof.
  induction l as [| x l IH]; intros H; [reflexivity |].
  simpl. rewrite (H x (or_introl eq_refl)), IH; [reflexivity |].
  intros y Hy. apply H. right. exact Hy.
Qed.

Lemma list_sum_map_plus {A} (f g : A -> nat) (l : list A) :
  list_sum_map (fun x => (f x + g x)%nat) l = (list_sum_map f l + list_sum_map g l)%nat.
Proof. induction l as [| x l IH]; simpl; [reflexivity | rewrite IH; lia]. Qed.

Definition at_risk (th : ThresholdsConfig) (position : Models.PositionData) : bool :=
  match get_status th (Models.ltv position) with Healthy => false | _ => true end.

Lemma alert_for_alerts (th : ThresholdsConfig) (now_str : string) (w : WalletConfig)
    (proto_name : string) (position : Models.PositionData) :
  length (List.filter is_alert (alert_for th now_str w proto_name position)) =
    (if at_risk th position then 1 else 0)%nat /\
  length (List.filter is_log (alert_for th now_str w proto_name position)) = 0%nat.
Proof.
  unfold alert_for, at_risk, get_status.
  destruct (Qle_bool (ltv_critical th) (Models.ltv position)); [split; reflexivity |].
  destruct (Qle_bool (ltv_warning th) (Models.ltv position)); split; reflexivity.
Qed.

(** In one cycle, [check_and_alert] sends one log per position of a
    monitored wallet x protocol pair plus one per monitored pair without a
    position, and exactly one alert per position whose tier is not
    Healthy. *)
Theorem check_and_alert_counts (th : ThresholdsConfig) (protos : gset string)
    (fetch : string -> string -> gmap string Q -> list Models.PositionData)
    (price_table : gmap string Q) (now_str : string) (wallets : list WalletConfig) :
  length (List.filter is_log (check_and_alert th protos fetch price_table now_str wallets)) =
    (length (monitored_positions protos fetch price_table wallets) +
     length (empty_pairs protos fetch price_table wallets))%nat /\
  length (List.filter is_alert (check_and_alert th protos fetch price_table now_str wallets)) =
    length (List.filter (at_risk th) (monitored_positions protos fetch price_table wallets)).
Proof.
  unfold check_and_alert, monitored_positions, empty_pairs.
  rewrite !length_filter_flat_map, !length_flat_map.
  split.
  - rewrite <- list_sum_map_plus. apply list_sum_map_ext. intros w _.
    rewrite !length_filter_flat_map, !length_flat_map, <- list_sum_map_plus.
    apply list_sum_map_ext. intros proto_name _. unfold check_pair.
    destruct (decide (proto_name ∈ protos)); [| reflexivity].
    destruct (fetch proto_name (address w) price_table) as [| p ps] eqn:E; [reflexivity |].
    rewrite length_filter_flat_map.
    transitivity (length (p :: ps)); [| simpl; lia].
    generalize (p :: ps). intros l. induction l as [| q l IH]; [reflexivity |].
    simpl. rewrite (proj2 (alert_for_alerts th now_str w proto_name q)). simpl in IH. lia.
  - apply list_sum_map_ext. intros w _.
    rewrite !length_filter_flat_map. apply list_sum_map_ext. intros proto_name _.
    unfold check_pair.
    destruct (decide (proto_name ∈ protos)); [| reflexivity].
    destruct (fetch proto_name (address w) price_table) as [| p ps] eqn:E; [reflexivity |].
    rewrite length_filter_flat_map.
    generalize (p :: ps). intros l. induction l as [| q l IH]; [reflexivity |].
    simpl in IH |- *. rewrite (proj1 (alert_for_alerts th now_str w proto_name q)).
    destruct (at_risk th q) eqn:Hq; simpl; rewrite ?Hq; simpl; lia.
Qed.

(** ** Shape of the daily report *)

Lemma wallet_lines_length (th : ThresholdsConfig) (protos : gset string)
    (fetch : string -> string -> gmap string Q -> list Models.PositionData)
    (price_table : gmap string Q) (w : WalletConfig) :
  length (wallet_lines th protos fetch price_table w) =
  length (monitored_positions protos fetch price_table [w]).
Proof.
  unfold wallet_lines, monitored_positions. simpl. rewrite app_nil_r.
  rewrite !length_flat_map. apply list_sum_map_ext. intros proto_name _.
  destruct (decide (proto_name ∈ protos)); [apply length_map | reflexivity].
Qed.

Lemma monitored_positions_cons (protos : gset string)
    (fetch : string -> string -> gmap string Q -> list Models.PositionData)
    (price_table : gmap string Q) (w : WalletConfig) (ws : list WalletConfig) :
  monitored_positions protos fetch price_table (w :: ws) =
  (monitored_positions protos fetch price_table [w] ++
   monitored_positions protos fetch price_table ws)%list.
Proof. unfold monitored_positions. simpl. rewrite app_nil_r. reflexivity. Qed.

(** The daily report has one line per position of a monitored pair of the
    wallet, one section per wallet with at least one such position (in the
    order of the wallets), and falls back to "No active positions found."
    exactly when no monitored pair has a position. *)
Theorem daily_report_structure (th : ThresholdsConfig) (protos : gset string)
    (fetch : string -> string -> gmap string Q -> list Models.PositionData)
    (price_table : gmap string Q) (wallets : list WalletConfig) :
  (forall w, length (wallet_lines th protos fetch price_table w) =
             length (monitored_positions protos fetch price_table [w])) /\
  report_sections th protos fetch price_table wallets =
    omap (wallet_section th protos fetch price_table)
      (List.filter (fun w => negb (Nat.eqb (length (monitored_positions protos fetch price_table [w])) 0))
         wallets) /\
  length (report_sections th protos fetch price_table wallets) =
    length (List.filter
      (fun w => negb (Nat.eqb (length (monitored_positions protos fetch price_table [w])) 0))
      wallets) /\
  (report_sections th protos fetch price_table wallets = [] <->
   monitored_positions protos fetch price_table wallets = []).
Proof.
  assert (Hsec : forall w, wallet_section th protos fetch price_table w = None <->
                           length (monitored_positions protos fetch price_table [w]) = 0%nat).
  { intros w. rewrite <- (wallet_lines_length th). unfold wallet_section.
    destruct (wallet_lines th protos fetch price_table w); simpl; split; congruence. }
  split; [exact (wallet_lines_length th protos fetch price_table) |].
  unfold report_sections.
  induction wallets as [| w ws IH]; [split; [| split]; simpl; tauto |].
  destruct IH as (IH1 & IH2 & IH3).
  rewrite monitored_positions_cons.
  pose proof (Hsec w) as Hw.
  cbn [List.filter]. rewrite !omap_list_cons.
  remember (monitored_positions protos fetch price_table [w]) as m eqn:Hm.
  destruct (wallet_section th protos fetch price_table w) as [sec |] eqn:Ew.
  - assert (Hn : length m <> 0%nat) by (intros H; apply Hw in H; congruence).
    apply Nat.eqb_neq in Hn. rewrite Hn. cbn [negb]. rewrite omap_list_cons, Ew, IH1.
    split; [reflexivity | split; [cbn [length]; rewrite <- IH1, IH2; reflexivity |]].
    split; intros H; [discriminate |].
    apply app_eq_nil in H. destruct H as [H _]. rewrite H in Hn. discriminate.
  - pose proof (proj1 Hw eq_refl) as Hz.
    apply Nat.eqb_eq in Hz. rewrite Hz. cbn [negb].
    split; [exact IH1 | split; [exact IH2 |]].
    apply Nat.eqb_eq, length_zero_iff_nil in Hz. rewrite Hz. simpl. exact IH3.
Qed.

(** ** [_format_wallet] *)

Lemma string_length_app (s t : string) :
  String.length (s ++ t) = (String.length s + String.length t)%nat.
Proof. induction s as [| c s IH]; [reflexivity | exact (f_equal S IH)]. Qed.

Lemma string_app_assoc (s t u : string) : s ++ t ++ u = (s ++ t) ++ u.
Proof. induction s as [| c s IH]; [reflexivity | exact (f_equal (String c) IH)]. Qed.

Lemma string_app_nil_r (s : string) : s ++ "" = s.
Proof. induction s as [| c s IH]; [reflexivity | exact (f_equal (String c) IH)]. Qed.

Lemma substring_prefix (p q : string) : substring 0 (String.length p) (p ++ q) = p.
Proof.
  induction p as [| c p IH]; [destruct q; reflexivity | exact (f_equal (String c) IH)].
Qed.

Lemma substring_after (p q : string) (m : nat) :
  substring (String.length p) m (p ++ q) = substring 0 m q.
Proof. induction p as [| c p IH]; [reflexivity | exact IH]. Qed.

Lemma string_split_at (s : string) (n : nat) :
  (n <= String.length s)%nat -> exists p q, s = p ++ q /\ String.length p = n.
Proof.
  revert n. induction s as [| c s IH]; intros n Hn.
  - exists "", "". simpl in *. split; [reflexivity | lia].
  - destruct n as [| n].
    + exists "", (String c s). split; reflexivity.
    + simpl in Hn. destruct (IH n) as (p & q & -> & Hp); [lia |].
      exists (String c p), q. split; [reflexivity | exact (f_equal S Hp)].
Qed.

Lemma format_wallet_long (p mid sfx : string) :
  String.length p = 10%nat -> String.length sfx = 6%nat -> (0 < String.length mid)%nat ->
  format_wallet (p ++ mid ++ sfx) = p ++ "..." ++ sfx.
Proof.
  intros Hp Hs Hm. unfold format_wallet.
  rewrite !string_length_app.
  destruct (16 <? String.length p + (String.length mid + String.length sfx))%nat eqn:E;
    [| apply Nat.ltb_ge in E; lia].
  rewrite <- Hp at 1. rewrite substring_prefix. f_equal. f_equal.
  replace (String.length p + (String.length mid + String.length sfx) - 6)%nat
    with (String.length (p ++ mid)) by (rewrite string_length_app; lia).
  rewrite string_app_assoc, substring_after.
  rewrite <- Hs. rewrite <- (string_app_nil_r sfx) at 2.
  apply substring_prefix.
Qed.

(** [_format_wallet] leaves an address of at most 16 characters as it is;
    a longer one is shortened to its first 10 characters, "..." and its
    last 6 characters, 19 characters in all; shortening twice is shortening
    once. *)
Theorem format_wallet_shape (addr : string) :
  ((String.length addr <= 16)%nat -> format_wallet addr = addr) /\
  (forall p mid sfx, addr = p ++ mid ++ sfx ->
     String.length p = 10%nat -> String.length sfx = 6%nat -> (0 < String.length mid)%nat ->
     format_wallet addr = p ++ "..." ++ sfx) /\
  ((16 < String.length addr)%nat -> String.length (format_wallet addr) = 19%nat) /\
  format_wallet (format_wallet addr) = format_wallet addr.
Proof.
  assert (Hshort : (String.length addr <= 16)%nat -> format_wallet addr = addr).
  { intros H. unfold format_wallet.
    destruct (16 <? String.length addr)%nat eqn:E; [apply Nat.ltb_lt in E; lia | reflexivity]. }
  assert (Hlong : forall p mid sfx, addr = p ++ mid ++ sfx ->
     String.length p = 10%nat -> String.length sfx = 6%nat -> (0 < String.length mid)%nat ->
     format_wallet addr = p ++ "..." ++ sfx)
    by (intros p mid sfx -> ; apply format_wallet_long).
  assert (Hdec : (16 < String.length addr)%nat ->
     exists p mid sfx, addr = p ++ mid ++ sfx /\ String.length p = 10%nat /\
       String.length sfx = 6%nat /\ (0 < String.length mid)%nat).
  { intros H.
    destruct (string_split_at addr 10) as (p & r & Ha & Hp); [lia |].
    assert (Hr : String.length r = (String.length addr - 10)%nat)
      by (rewrite Ha, string_length_app; lia).
    destruct (string_split_at r (String.length r - 6)) as (mid & sfx & Hr' & Hm); [lia |].
    assert (Hs : String.length sfx = 6%nat).
    { assert (E := f_equal String.length Hr'). rewrite string_length_app in E. lia. }
    exists p, mid, sfx. split; [rewrite Ha, Hr'; reflexivity |].
    split; [exact Hp | split; [exact Hs | lia]]. }
  split; [exact Hshort | split; [exact Hlong |]].
  destruct (Nat.le_gt_cases (String.length addr) 16) as [Hle | Hgt].
  - split; [intros; lia |]. rewrite (Hshort Hle). exact (Hshort Hle).
  - destruct (Hdec Hgt) as (p & mid & sfx & Ha & Hp & Hs & Hm).
    rewrite (Hlong p mid sfx Ha Hp Hs Hm).
    split.
    + intros _. rewrite !string_length_app, Hp, Hs. reflexivity.
    + apply format_wallet_long; [exact Hp | exact Hs | simpl; lia].
Qed.

(** ** [get_token_symbol] *)

Lemma upper_char_colon (c : ascii) : Ascii.eqb ":" (upper_char c) = Ascii.eqb ":" c.
Proof. destruct c as [[] [] [] [] [] [] [] []]; reflexivity. Qed.

Lemma upper_char_idem (c : ascii) : upper_char (upper_char c) = upper_char c.
Proof. destruct c as [[] [] [] [] [] [] [] []]; reflexivity. Qed.

Lemma upper_idem (s : string) : upper (upper s) = upper s.
Proof.
  unfold upper. rewrite list_ascii_of_string_of_list_ascii, map_map.
  f_equal. apply map_ext. apply upper_char_idem.
Qed.

Lemma contains_upper_colons (s : string) : contains (upper s) "::" = contains s "::".
Proof.
  unfold contains, upper. rewrite list_ascii_of_string_of_list_ascii.
  change (list_ascii_of_string "::") with [":"%char; ":"%char].
  induction (list_ascii_of_string s) as [| c cs IH]; [reflexivity |].
  cbn [map contains_aux]. rewrite IH. f_equal.
  destruct cs as [| c' cs]; cbn [map prefix_eqb]; rewrite ?upper_char_colon; reflexivity.
Qed.

Lemma split_aux_not_nil (sep : list ascii) (fuel : nat) :
  forall cs cur, split_aux sep fuel cs cur <> [].
Proof.
  induction fuel as [| fuel IH]; intros cs cur; simpl; [discriminate |].
  destruct cs as [| c rest]; [discriminate |].
  destruct (prefix_eqb sep (c :: rest)); [discriminate | apply IH].
Qed.

Lemma contains_aux_none (sep l : list ascii) :
  sep <> [] ->
  (forall i, (i < length l)%nat -> prefix_eqb sep (skipn i l) = false) ->
  contains_aux sep l = false.
Proof.
  intros Hsep. induction l as [| x l IH]; intros H.
  - destruct sep; [contradiction | reflexivity].
  - pose proof (H 0%nat ltac:(simpl; lia)) as H0. simpl in H0 |- *. rewrite H0. simpl.
    apply IH. intros i Hi. apply (H (S i)). simpl. lia.
Qed.

(** The last piece of [split] contains no separator. *)
Lemma split_aux_last (sep : list ascii) (Hsep : sep <> []) (fuel : nat) :
  forall cs cur, (length cs < fuel)%nat ->
  (forall i, (i < length cur)%nat -> prefix_eqb sep (skipn i (rev cur) ++ cs) = false) ->
  contains_aux sep (List.last (split_aux sep fuel cs cur) []) = false.
Proof.
  induction fuel as [| fuel IH]; intros cs cur Hlen Hinv; [lia |].
  simpl. destruct cs as [| c rest].
  - cbn [List.last]. apply contains_aux_none; [exact Hsep |].
    intros i Hi. rewrite length_rev in Hi. rewrite <- (app_nil_r (skipn i (rev cur))).
    apply Hinv. exact Hi.
  - destruct (prefix_eqb sep (c :: rest)) eqn:Hp.
    + assert (Hne := split_aux_not_nil sep fuel (skipn (length sep) (c :: rest)) []).
      destruct (split_aux sep fuel (skipn (length sep) (c :: rest)) []) as [| y ys] eqn:E;
        [contradiction |].
      change (contains_aux sep (List.last (rev cur :: y :: ys) []) = false).
      rewrite <- E. cbn [List.last]. rewrite E. rewrite <- E.
      apply IH.
      * rewrite length_skipn. simpl in Hlen |- *. destruct sep; [contradiction |]. simpl. lia.
      * intros i Hi. simpl in Hi. lia.
    + apply IH; [simpl in Hlen; lia |].
      intros i Hi. simpl in Hi. simpl rev.
      destruct (Nat.lt_ge_cases i (length cur)) as [Hlt | Hge].
      * rewrite skipn_app. rewrite length_rev.
        replace (i - length cur)%nat with 0%nat by lia. simpl.
        rewrite <- app_assoc. apply Hinv. exact Hlt.
      * replace i with (length (rev cur)) by (rewrite length_rev; lia).
        rewrite skipn_app, Nat.sub_diag, skipn_all. simpl. exact Hp.
Qed.

Lemma last_map_nonempty {A B} (f : A -> B) (l : list A) (d : A) (d' : B) :
  l <> [] -> List.last (map f l) d' = f (List.last l d).
Proof.
  induction l as [| x l IH]; intros H; [contradiction |].
  destruct l as [| y l]; [reflexivity |].
  change (List.last (map f (y :: l)) d' = f (List.last (y :: l) d)). apply IH. discriminate.
Qed.

(** [get_token_symbol] never returns a string containing "::", and it is
    idempotent: a symbol it returned maps to itself. *)
Theorem get_token_symbol_normal (coin_type : string) :
  contains (get_token_symbol coin_type) "::" = false /\
  get_token_symbol (get_token_symbol coin_type) = get_token_symbol coin_type.
Proof.
  assert (Hno : contains (get_token_symbol coin_type) "::" = false).
  { unfold get_token_symbol.
    destruct (contains coin_type "::") eqn:E; rewrite contains_upper_colons; [| exact E].
    unfold last_or_empty, split.
    rewrite (last_map_nonempty _ _ []) by apply split_aux_not_nil.
    unfold contains. rewrite list_ascii_of_string_of_list_ascii.
    apply split_aux_last; [discriminate | lia | intros i Hi; simpl in Hi; lia]. }
  split; [exact Hno |].
  unfold get_token_symbol at 1. rewrite Hno.
  unfold get_token_symbol. destruct (contains coin_type "::"); apply upper_idem.
Qed.

(** ** Position discovery *)

(** Every id [_get_position_capabilities] returns is truthy, and it returns
    at most one id per owned object. *)
Theorem position_capabilities_bounded (package_id : string) (objects caps : list json) :
  get_position_capabilities package_id objects = Some caps ->
  Forall (fun c => truthy c = true) caps /\ (length caps <= length objects)%nat.
Proof.
  revert caps. induction objects as [| obj rest IH]; intros caps H.
  - simpl in H. inversion H. split; [constructor | simpl; lia].
  - simpl in H.
    destruct (position_cap_of package_id obj) as [c |] eqn:Ec; [| discriminate]. simpl in H.
    destruct (get_position_capabilities package_id rest) as [cs |]; [| discriminate].
    simpl in H. inversion H; subst caps. clear H.
    destruct (IH cs eq_refl) as [Hf Hl].
    assert (Hc : Forall (fun c => truthy c = true) c /\ (length c <= 1)%nat).
    { unfold position_cap_of in Ec.
      destruct (dict_get obj "data" (JDict [])) as [data |]; [| discriminate]. simpl in Ec.
      destruct (dict_get data "type" (JStr "")) as [ty |]; [| discriminate]. simpl in Ec.
      destruct (dict_get data "objectId" (JStr "")) as [oid |]; [| discriminate]. simpl in Ec.
      destruct (py_str ty) as [t |]; [| discriminate]. simpl in Ec.
      destruct (_ || _)%bool; [| inversion Ec; split; [constructor | simpl; lia]].
      destruct (truthy oid) eqn:Et; inversion Ec; split; simpl; auto; lia. }
    destruct Hc as [Hcf Hcl]. split.
    + apply Forall_app. split; assumption.
    + rewrite length_app. simpl. lia.
Qed.

Lemma position_capabilities_bounded_witness :
  Forall (fun c => truthy c = true) [JStr "0xcap"] /\ (length [JStr "0xcap"] <= 2)%nat.
Proof.
  apply (position_capabilities_bounded "0xpkg"
           [owned_object "0xpkg::position::PositionCap" "0xcap"; owned_object "0x2::coin::Coin" "0xc"]).
  reflexivity.
Defined.

Lemma contains_empty (s : string) : contains s "" = true.
Proof. unfold contains. destruct (list_ascii_of_string s); reflexivity. Qed.

(** With the default [package_id] [""] (no ["package_id"] in the contracts
    of the configuration), [_get_position_capabilities] takes every owned
    object whose id is non-empty, whatever its type. *)
Theorem empty_package_id_selects_all (objs : list (string * string)) :
  get_position_capabilities "" (map (fun '(t, i) => owned_object t i) objs) =
  Some (map JStr (List.filter (fun i => negb (String.eqb i "")) (map snd objs))).
Proof.
  induction objs as [| [t i] objs IH]; [reflexivity |].
  simpl. unfold position_cap_of. simpl. rewrite contains_empty, !orb_true_r.
  rewrite IH. simpl. destruct (String.eqb i ""); reflexivity.
Qed.

(** ** The market cache across a whole fetch *)

Lemma get_market_info_keeps (rpc : Z -> option json) (market_cache : gmap Z json) (mid : Z) :
  forall k m, market_cache !! k = Some m ->
  snd (get_market_info rpc market_cache mid) !! k = Some m.
Proof.
  intros k m Hm. unfold get_market_info.
  destruct (market_cache !! mid) as [m0 |] eqn:Hc; [exact Hm |].
  destruct (rpc mid) as [r |]; [| exact Hm].
  destruct (negb (truthy r)); [exact Hm |].
  destruct (extract_market r) as [market |]; [| exact Hm].
  simpl. rewrite lookup_insert_ne; [exact Hm |]. intros ->. congruence.
Qed.

Lemma parse_collaterals_keeps (rpc : Z -> option json) (prices : gmap string Q)
    (cfg : ProtocolConfig) (entries : list json) :
  forall market_cache details total k m, market_cache !! k = Some m ->
  snd (parse_collaterals rpc prices cfg entries market_cache details total) !! k = Some m.
Proof.
  induction entries as [| entry rest IH]; intros market_cache details total k m Hm;
    [exact Hm |].
  simpl.
  destruct (f ← dict_get entry "fields" (JDict []);
            key ← dict_get f "key" (JInt 0); py_int key) as [mid |]; [| exact Hm].
  pose proof (get_market_info_keeps rpc market_cache mid k m Hm) as H1.
  destruct (get_market_info rpc market_cache mid) as [mi c1]. simpl in H1.
  destruct (parse_collateral_entry _ _ _ _ _) as [d |]; [| exact H1].
  apply IH. exact H1.
Qed.

Lemma parse_position_keeps (cfg : ProtocolConfig) (rpc : Z -> option json)
    (position_data : json) (prices : gmap string Q) (market_cache : gmap Z json) :
  forall k m, market_cache !! k = Some m ->
  snd (parse_position cfg rpc position_data prices market_cache) !! k = Some m.
Proof.
  intros k m Hm. unfold parse_position.
  destruct (c ← dict_get position_data "collaterals" (JDict []);
            cf ← dict_get c "fields" (JDict []);
            cc ← dict_get cf "contents" (JList []); py_iter cc)
    as [collaterals_raw |]; [| exact Hm].
  pose proof (parse_collaterals_keeps rpc prices cfg collaterals_raw market_cache [] 0 k m Hm)
    as H1.
  destruct (parse_collaterals rpc prices cfg collaterals_raw market_cache [] 0)
    as [[[cds tc] |] c1]; simpl in H1; [| exact H1].
  destruct (l ← dict_get position_data "loans" (JList []);
            loans_raw ← py_iter l; parse_loans prices cfg loans_raw [] 0)
    as [[lds tl] |]; exact H1.
Qed.

Lemma fetch_caps_keeps (ad : AlphaLendAdapter) (client : ChainClient) (price_table : gmap string Q)
    (caps : list json) :
  forall positions market_cache k m, market_cache !! k = Some m ->
  snd (fetch_caps ad client price_table caps positions market_cache) !! k = Some m.
Proof.
  induction caps as [| cap rest IH]; intros positions market_cache k m Hm; [exact Hm |].
  simpl.
  destruct (details ← get_object client cap; cap_position_id details) as [pid |];
    [| exact Hm].
  destruct (negb (truthy pid)); [apply IH; exact Hm |].
  destruct (negb (truthy (get_position_data (positions_table client) pid))); [apply IH; exact Hm |].
  pose proof (parse_position_keeps (adapter_config ad) (markets_table client)
                (get_position_data (positions_table client) pid) price_table market_cache k m Hm) as H1.
  destruct (parse_position _ _ _ _ _) as [[p |] c1]; simpl in H1; [apply IH |]; exact H1.
Qed.

(** [fetch_positions] never removes or changes a cached market record,
    whether it returns positions or raises part-way. *)
Theorem fetch_positions_keeps_cache (ad : AlphaLendAdapter) (client : ChainClient)
    (wallet_address : string) (price_table : gmap string Q) (market_cache : gmap Z json) :
  forall k m, market_cache !! k = Some m ->
  snd (fetch_positions ad client wallet_address price_table market_cache) !! k = Some m.
Proof.
  intros k m Hm. unfold fetch_positions.
  destruct (get_position_capabilities _ _) as [caps |]; [| exact Hm].
  apply fetch_caps_keeps. exact Hm.
Qed.

Lemma fetch_positions_keeps_cache_witness :
  snd (fetch_positions sample_adapter sample_client "0xaaa" sample_prices
         (<[7%Z := JDict []]> ∅)) !! 7%Z = Some (JDict []).
Proof. apply fetch_positions_keeps_cache. reflexivity. Defined.

(** ** The markets table is only asked for markets not in the cache *)

Lemma get_market_info_rpc_agree (rpc1 rpc2 : Z -> option json) (market_cache : gmap Z json)
    (mid : Z) :
  (forall k, market_cache !! k = None -> rpc1 k = rpc2 k) ->
  get_market_info rpc1 market_cache mid = get_market_info rpc2 market_cache mid.
Proof.
  intros H. unfold get_market_info.
  destruct (market_cache !! mid) eqn:Hc; [reflexivity |]. rewrite (H mid Hc). reflexivity.
Qed.

Lemma parse_collaterals_rpc_agree (rpc1 rpc2 : Z -> option json) (prices : gmap string Q)
    (cfg : ProtocolConfig) (entries : list json) :
  forall market_cache details total,
  (forall k, market_cache !! k = None -> rpc1 k = rpc2 k) ->
  parse_collaterals rpc1 prices cfg entries market_cache details total =
  parse_collaterals rpc2 prices cfg entries market_cache details total.
Proof.
  induction entries as [| entry rest IH]; intros market_cache details total H; [reflexivity |].
  simpl.
  destruct (f ← dict_get entry "fields" (JDict []);
            key ← dict_get f "key" (JInt 0); py_int key) as [mid |]; [| reflexivity].
  rewrite (get_market_info_rpc_agree rpc1 rpc2 market_cache mid H).
  pose proof (get_market_info_keeps rpc2 market_cache mid) as Hk.
  destruct (get_market_info rpc2 market_cache mid) as [mi c1]. simpl in Hk.
  destruct (parse_collateral_entry _ _ _ _ _) as [d |]; [| reflexivity].
  apply IH. intros k Hn. apply H.
  destruct (market_cache !! k) as [m |] eqn:E; [| reflexivity].
  rewrite (Hk k m E) in Hn. discriminate.
Qed.

(** [_parse_position] only depends on the markets table's answers for the
    market ids that are not cached when it starts: two tables that agree on
    those give the same position and the same cache. *)
Theorem parse_position_rpc_on_misses (cfg : ProtocolConfig) (rpc1 rpc2 : Z -> option json)
    (position_data : json) (prices : gmap string Q) (market_cache : gmap Z json) :
  (forall k, market_cache !! k = None -> rpc1 k = rpc2 k) ->
  parse_position cfg rpc1 position_data prices market_cache =
  parse_position cfg rpc2 position_data prices market_cache.
Proof.
  intros H. unfold parse_position.
  destruct (c ← dict_get position_data "collaterals" (JDict []);
            cf ← dict_get c "fields" (JDict []);
            cc ← dict_get cf "contents" (JList []); py_iter cc)
    as [collaterals_raw |]; [| reflexivity].
  rewrite (parse_collaterals_rpc_agree rpc1 rpc2 prices cfg collaterals_raw market_cache [] 0 H).
  reflexivity.
Qed.

Lemma parse_position_rpc_on_misses_witness :
  parse_position sample_config sample_rpc sample_position_data sample_prices
    (<[1%Z := sui_market]> ∅) =
  parse_position sample_config (fun k => if Z.eqb k 1 then None else sample_rpc k)
    sample_position_data sample_prices (<[1%Z := sui_market]> ∅).
Proof.
  apply parse_position_rpc_on_misses.
  intros k Hk. destruct (Z.eqb k 1) eqn:E; [| reflexivity].
  apply Z.eqb_eq in E. subst k. vm_compute in Hk. discriminate.
Defined.

(** ** What [_parse_position] builds *)

Lemma parse_collaterals_length (rpc : Z -> option json) (prices : gmap string Q)
    (cfg : ProtocolConfig) (entries : list json) :
  forall market_cache details total ds t market_cache',
  parse_collaterals rpc prices cfg entries market_cache details total =
    (Some (ds, t), market_cache') ->
  length ds = (length details + length entries)%nat.
Proof.
  induction entries as [| entry rest IH]; intros market_cache details total ds t c' H.
  - simpl in H. inversion H; subst. simpl. lia.
  - simpl in H.
    destruct (f ← dict_get entry "fields" (JDict []);
              k ← dict_get f "key" (JInt 0); py_int k) as [mid |]; [| discriminate].
    destruct (get_market_info rpc market_cache mid) as [mi c1].
    destruct (parse_collateral_entry _ _ _ _ _) as [d |]; [| discriminate].
    rewrite (IH _ _ _ _ _ _ H), length_app. simpl. lia.
Qed.

Lemma parse_loans_length (prices : gmap string Q) (cfg : ProtocolConfig) (entries : list json) :
  forall details total ds t,
  parse_loans prices cfg entries details total = Some (ds, t) ->
  length ds = (length details + length entries)%nat.
Proof.
  induction entries as [| entry rest IH]; intros details total ds t H.
  - simpl in H. inversion H; subst. simpl. lia.
  - simpl in H.
    destruct (parse_loan_entry _ _ _ _) as [d |]; [| discriminate]. simpl in H.
    rewrite (IH _ _ _ _ H), length_app. simpl. lia.
Qed.

(** A position [_parse_position] returns has one collateral asset per
    entry of [collaterals.fields.contents] and one borrowed asset per entry
    of [loans]: no entry is dropped. *)
Theorem parse_position_one_asset_per_entry (cfg : ProtocolConfig) (rpc : Z -> option json)
    (position_data : json) (prices : gmap string Q) (market_cache : gmap Z json)
    (p : Models.PositionData) (market_cache' : gmap Z json) :
  parse_position cfg rpc position_data prices market_cache = (Some p, market_cache') ->
  exists collaterals_raw loans_raw,
    (c ← dict_get position_data "collaterals" (JDict []);
     cf ← dict_get c "fields" (JDict []);
     cc ← dict_get cf "contents" (JList []); py_iter cc) = Some collaterals_raw /\
    (l ← dict_get position_data "loans" (JList []); py_iter l) = Some loans_raw /\
    length (Models.collateral_assets p) = length collaterals_raw /\
    length (Models.borrowed_assets p) = length loans_raw.
Proof.
  intros H. unfold parse_position in H.
  destruct (c ← dict_get position_data "collaterals" (JDict []);
            cf ← dict_get c "fields" (JDict []);
            cc ← dict_get cf "contents" (JList []); py_iter cc)
    as [collaterals_raw |]; [| discriminate].
  destruct (parse_collaterals rpc prices cfg collaterals_raw market_cache [] 0)
    as [[[cds tc] |] c1] eqn:Ec; [| discriminate].
  destruct (dict_get position_data "loans" (JList [])) as [l |] eqn:Eld; [| discriminate].
  simpl in H. destruct (py_iter l) as [loans_raw |] eqn:Eli; [| discriminate]. simpl in H.
  destruct (parse_loans prices cfg loans_raw [] 0) as [[lds tl] |] eqn:El; [| discriminate].
  inversion H; subst p. clear H.
  exists collaterals_raw, loans_raw. split; [reflexivity | split; [simpl; rewrite Eli; reflexivity |]].
  simpl. rewrite !length_map.
  rewrite (parse_collaterals_length _ _ _ _ _ _ _ _ _ _ Ec), (parse_loans_length _ _ _ _ _ _ _ El).
  split; reflexivity.
Qed.

Lemma parse_position_one_asset_per_entry_witness :
  exists p c,
    parse_position sample_config sample_rpc sample_position_data sample_prices ∅ = (Some p, c) /\
    length (Models.collateral_assets p) = 1%nat /\ length (Models.borrowed_assets p) = 1%nat.
Proof.
  destruct (parse_position sample_config sample_rpc sample_position_data sample_prices ∅)
    as [[p |] c] eqn:E.
  - exists p, c. split; [reflexivity |].
    destruct (parse_position_one_asset_per_entry _ _ _ _ _ p c E)
      as (cs & ls & Hc & Hl & H1 & H2).
    vm_compute in Hc, Hl. inversion Hc. inversion Hl. subst.
    rewrite H1, H2. split; reflexivity.
  - vm_compute in E. discriminate.
Defined.

(** A stored position with no ["collaterals"] and no ["loans"] key is
    parsed as an empty position: totals 0, LTV 0, health factor [inf],
    both summaries "N/A", no assets; the cache is left as it was. *)
Theorem parse_position_empty (cfg : ProtocolConfig) (rpc : Z -> option json)
    (prices : gmap string Q) (market_cache : gmap Z json) (kvs : list (string * json)) :
  assoc "collaterals" kvs = None -> assoc "loans" kvs = None ->
  parse_position cfg rpc (JDict kvs) prices market_cache =
  (Some {| Models.collateral_value := 0; Models.borrowed_value := 0; Models.ltv := 0;
           Models.health_factor := Inf;
           Models.liquidation_threshold := liquidation_threshold cfg;
           Models.asset := "N/A"; Models.borrowed_asset := "N/A";
           Models.protocol_name := "alphalend"; Models.wallet_label := "";
           Models.collateral_assets := []; Models.borrowed_assets := [] |},
   market_cache).
Proof.
  intros Hc Hl. unfold parse_position. simpl. rewrite Hc. simpl. rewrite Hl. reflexivity.
Qed.

Lemma parse_position_empty_witness :
  parse_position sample_config sample_rpc (JDict [("is_position_healthy", JBool true)])
    sample_prices ∅ =
  (Some {| Models.collateral_value := 0; Models.borrowed_value := 0; Models.ltv := 0;
           Models.health_factor := Inf; Models.liquidation_threshold := 85;
           Models.asset := "N/A"; Models.borrowed_asset := "N/A";
           Models.protocol_name := "alphalend"; Models.wallet_label := "";
           Models.collateral_assets := []; Models.borrowed_assets := [] |}, ∅).
Proof.
  exact (parse_position_empty sample_config sample_rpc sample_prices ∅
           [("is_position_healthy", JBool true)] eq_refl eq_refl).
Defined.

(** ** [fetch_positions] *)

Lemma parse_position_fields (cfg : ProtocolConfig) (rpc : Z -> option json)
    (position_data : json) (prices : gmap string Q) (market_cache : gmap Z json)
    (p : Models.PositionData) (market_cache' : gmap Z json) :
  parse_position cfg rpc position_data prices market_cache = (Some p, market_cache') ->
  Models.protocol_name p = "alphalend" /\
  Models.liquidation_threshold p = liquidation_threshold cfg /\
  Models.ltv p = calc_ltv (Models.collateral_value p) (Models.borrowed_value p) /\
  Models.health_factor p =
    calc_health_factor (Models.collateral_value p) (Models.borrowed_value p)
      (liquidation_threshold cfg).
Proof.
  intros H. unfold parse_position in H.
  destruct (c ← dict_get position_data "collaterals" (JDict []);
            cf ← dict_get c "fields" (JDict []);
            cc ← dict_get cf "contents" (JList []); py_iter cc)
    as [collaterals_raw |]; [| discriminate].
  destruct (parse_collaterals rpc prices cfg collaterals_raw market_cache [] 0)
    as [[[cds tc] |] c1]; [| discriminate].
  destruct (l ← dict_get position_data "loans" (JList []);
            loans_raw ← py_iter l; parse_loans prices cfg loans_raw [] 0)
    as [[lds tl] |]; [| discriminate].
  inversion H; subst p. repeat split.
Qed.

Definition position_consistent (cfg : ProtocolConfig) (p : Models.PositionData) : Prop :=
  Models.protocol_name p = "alphalend" /\
  Models.liquidation_threshold p = liquidation_threshold cfg /\
  Models.ltv p = calc_ltv (Models.collateral_value p) (Models.borrowed_value p) /\
  Models.health_factor p =
    calc_health_factor (Models.collateral_value p) (Models.borrowed_value p)
      (liquidation_threshold cfg).

Lemma fetch_caps_result (ad : AlphaLendAdapter) (client : ChainClient) (prices : gmap string Q)
    (caps : list json) :
  forall positions market_cache ps market_cache',
  fetch_caps ad client prices caps positions market_cache = (Some ps, market_cache') ->
  (length ps <= length positions + length caps)%nat /\
  (Forall (position_consistent (adapter_config ad)) positions ->
   Forall (position_consistent (adapter_config ad)) ps).
Proof.
  induction caps as [| cap rest IH]; intros positions market_cache ps c' H.
  - simpl in H. inversion H; subst. split; [lia | auto].
  - simpl in H.
    destruct (details ← get_object client cap; cap_position_id details) as [pid |];
      [| discriminate].
    destruct (negb (truthy pid)).
    { destruct (IH _ _ _ _ H) as [H1 H2]. simpl. split; [lia | exact H2]. }
    destruct (negb (truthy (get_position_data (positions_table client) pid))).
    { destruct (IH _ _ _ _ H) as [H1 H2]. simpl. split; [lia | exact H2]. }
    destruct (parse_position _ _ _ _ _) as [[p |] c1] eqn:Ep; [| discriminate].
    destruct (IH _ _ _ _ H) as [H1 H2]. rewrite length_app in H1. simpl in H1 |- *.
    split; [lia |]. intros Hf. apply H2. apply Forall_app. split; [exact Hf |].
    constructor; [| constructor]. exact (parse_position_fields _ _ _ _ _ _ _ Ep).
Qed.

(** [fetch_positions] returns at most one position per PositionCap found
    in the wallet, and every position it returns is named "alphalend",
    carries the configured liquidation threshold and has the LTV and the
    health factor of its own totals. *)
Theorem fetch_positions_result (ad : AlphaLendAdapter) (client : ChainClient)
    (wallet_address : string) (prices : gmap string Q) (market_cache : gmap Z json)
    (ps : list Models.PositionData) (market_cache' : gmap Z json) :
  fetch_positions ad client wallet_address prices market_cache = (Some ps, market_cache') ->
  exists caps,
    get_position_capabilities (package_id ad) (get_owned_objects client wallet_address) =
      Some caps /\
    (length ps <= length caps)%nat /\
    Forall (position_consistent (adapter_config ad)) ps.
Proof.
  intros H. unfold fetch_positions in H.
  destruct (get_position_capabilities _ _) as [caps |]; [| discriminate].
  exists caps. split; [reflexivity |].
  destruct (fetch_caps_result ad client prices caps [] market_cache ps market_cache' H)
    as [H1 H2].
  split; [simpl in H1; lia | apply H2; constructor].
Qed.

Lemma fetch_positions_result_witness :
  exists ps c,
    fetch_positions sample_adapter sample_client "0xaaa" sample_prices ∅ = (Some ps, c) /\
    (length ps <= 1)%nat /\ Forall (position_consistent sample_config) ps.
Proof.
  destruct (fetch_positions sample_adapter sample_client "0xaaa" sample_prices ∅)
    as [[ps |] c] eqn:E.
  - exists ps, c. split; [reflexivity |].
    destruct (fetch_positions_result _ _ _ _ _ ps c E) as (caps & Hc & H1 & H2).
    vm_compute in Hc. inversion Hc. subst caps. split; [exact H1 | exact H2].
  - vm_compute in E. discriminate.
Defined.

(** ** Entries with missing fields *)

(** A collateral entry without a ["fields"] record is not rejected when its
    market record can be read (some entry parses with it): it is read with
    market id 0 and 0 shares, so it is valued at 0 USD.  A loan entry
    without ["fields"] is never rejected: its amount is 0, it is valued at
    0 USD and, having no coin type, it is given the symbol "UNKNOWN". *)
Theorem entry_without_fields_is_zero (kvs : list (string * json)) (market_info : json)
    (prices : gmap string Q) (decs : gmap string Z) (aliases : gmap string string) :
  assoc "fields" kvs = None ->
  ((exists e d0, parse_collateral_entry e market_info prices decs aliases = Some d0) ->
   exists d, parse_collateral_entry (JDict kvs) market_info prices decs aliases = Some d /\
     market_id d = Some 0%Z /\ amount d == 0 /\ usd_value d == 0) /\
  (exists d, parse_loan_entry (JDict kvs) prices decs aliases = Some d /\
     symbol d = "UNKNOWN" /\ amount d == 0 /\ usd_value d == 0).
Proof.
  intros Hf. split.
  - intros (e & d0 & He). unfold parse_collateral_entry in He |- *.
    do 5 (apply bind_Some in He as (? & _ & He)).
    simpl. rewrite Hf. simpl.
    apply bind_Some in He as (ct & Hct & He). rewrite Hct. simpl.
    apply bind_Some in He as (ctf & Hctf & He). rewrite Hctf. simpl.
    apply bind_Some in He as (name & Hname & He). rewrite Hname. simpl.
    apply bind_Some in He as (coin_type & Hcoin & He). rewrite Hcoin. simpl.
    apply bind_Some in He as (ratio & Hratio & _). rewrite Hratio. simpl.
    eexists. split; [reflexivity |]. simpl.
    unfold share_amount. simpl. split; [reflexivity | split; reflexivity].
  - unfold parse_loan_entry. simpl. rewrite Hf. simpl.
    eexists. split; [reflexivity |]. simpl.
    split; [reflexivity |]. unfold direct_amount. simpl. split; reflexivity.
Qed.

(** A dynamic-field record with no ["fields"], read as a collateral entry
    of the SUI market and as a loan entry. *)
Lemma entry_without_fields_is_zero_witness :
  (exists d, parse_collateral_entry (JDict [("type", JStr "0x2::dynamic_field::Field")])
               sui_market sample_prices ∅ ∅ = Some d /\
     market_id d = Some 0%Z /\ amount d == 0 /\ usd_value d == 0) /\
  (exists d, parse_loan_entry (JDict [("type", JStr "0x2::dynamic_field::Field")]) ∅ ∅ ∅ = Some d /\
     symbol d = "UNKNOWN" /\ amount d == 0 /\ usd_value d == 0).
Proof.
  destruct (entry_without_fields_is_zero [("type", JStr "0x2::dynamic_field::Field")]
              sui_market sample_prices ∅ ∅) as [Hc Hl]; [reflexivity |].
  split; [| exact Hl].
  apply Hc. exists (collateral_entry (JStr "1") (JStr "500000000000")).
  eexists. reflexivity.
Defined.

(** ** Where a resolved price comes from *)

(** [resolve_price] never makes up a price: the result is 0 or the price
    the table holds for the symbol itself or for its alias (aliases are
    followed one step, never further). *)
Theorem resolve_price_source (sym : string) (prices : gmap string Q)
    (aliases : gmap string string) :
  resolve_price sym prices aliases = 0 \/
  exists k, (k = sym \/ aliases !! sym = Some k) /\
            prices !! k = Some (resolve_price sym prices aliases).
Proof.
  unfold resolve_price.
  destruct (prices !! sym) as [p |] eqn:Hp; simpl.
  - destruct (Qeq_bool p 0).
    + destruct (aliases !! sym) as [a |] eqn:Ha.
      * destruct (prices !! a) as [pa |] eqn:Hpa; simpl; [| left; reflexivity].
        right. exists a. split; [right; reflexivity | exact Hpa].
      * right. exists sym. split; [left; reflexivity | exact Hp].
    + right. exists sym. split; [left; reflexivity | exact Hp].
  - destruct (aliases !! sym) as [a |] eqn:Ha; [| left; reflexivity].
    destruct (prices !! a) as [pa |] eqn:Hpa; simpl; [| left; reflexivity].
    right. exists a. split; [right; reflexivity | exact Hpa].
Qed.

(** ** One malformed entry loses the whole position *)

Lemma parse_collaterals_bad_key (rpc : Z -> option json) (prices : gmap string Q)
    (cfg : ProtocolConfig) (e : json) (entries : list json) :
  In e entries ->
  (f ← dict_get e "fields" (JDict []); k ← dict_get f "key" (JInt 0); py_int k) = None ->
  forall market_cache details total,
  fst (parse_collaterals rpc prices cfg entries market_cache details total) = None.
Proof.
  intros Hin Hbad. induction entries as [| x rest IH]; [destruct Hin |].
  intros market_cache details total. simpl.
  destruct Hin as [-> | Hin].
  - rewrite Hbad. reflexivity.
  - destruct (f ← dict_get x "fields" (JDict []); k ← dict_get f "key" (JInt 0); py_int k)
      as [mid |]; [| reflexivity].
    destruct (get_market_info rpc market_cache mid) as [mi c1].
    destruct (parse_collateral_entry _ _ _ _ _) as [d |]; [| reflexivity].
    apply IH. exact Hin.
Qed.

Lemma parse_loans_bad_entry (prices : gmap string Q) (cfg : ProtocolConfig) (e : json)
    (entries : list json) :
  In e entries ->
  parse_loan_entry e prices (token_decimals cfg) (token_aliases cfg) = None ->
  forall details total, parse_loans prices cfg entries details total = None.
Proof.
  intros Hin Hbad. induction entries as [| x rest IH]; [destruct Hin |].
  intros details total. simpl.
  destruct Hin as [-> | Hin].
  - rewrite Hbad. reflexivity.
  - destruct (parse_loan_entry x _ _ _) as [d |]; [| reflexivity]. simpl. apply IH. exact Hin.
Qed.

(** [_parse_position] raises (no position at all) when one collateral
    entry has a market key [int()] rejects, or when one loan entry cannot
    be parsed (e.g. an amount [int()] rejects): the other entries do not
    save it. *)
Theorem parse_position_malformed_entry (cfg : ProtocolConfig) (rpc : Z -> option json)
    (position_data : json) (prices : gmap string Q) (market_cache : gmap Z json)
    (collaterals_raw loans_raw : list json) (e : json) :
  (c ← dict_get position_data "collaterals" (JDict []);
   cf ← dict_get c "fields" (JDict []);
   cc ← dict_get cf "contents" (JList []); py_iter cc) = Some collaterals_raw ->
  (l ← dict_get position_data "loans" (JList []); py_iter l) = Some loans_raw ->
  (In e collaterals_raw /\
     (f ← dict_get e "fields" (JDict []); k ← dict_get f "key" (JInt 0); py_int k) = None \/
   In e loans_raw /\ parse_loan_entry e prices (token_decimals cfg) (token_aliases cfg) = None) ->
  fst (parse_position cfg rpc position_data prices market_cache) = None.
Proof.
  intros Hc Hl Hbad. unfold parse_position. rewrite Hc.
  destruct (parse_collaterals rpc prices cfg collaterals_raw market_cache [] 0)
    as [[[cds tc] |] c1] eqn:Ec; [| reflexivity].
  destruct Hbad as [[Hin Hk] | [Hin Hp]].
  - pose proof (parse_collaterals_bad_key rpc prices cfg e collaterals_raw Hin Hk
                  market_cache [] 0) as H. rewrite Ec in H. discriminate.
  - destruct (dict_get position_data "loans" (JList [])) as [l |]; [| discriminate].
    simpl in Hl |- *. rewrite Hl. simpl.
    rewrite (parse_loans_bad_entry prices cfg e loans_raw Hin Hp). reflexivity.
Qed.

(** [sample_position_data] with a second collateral entry keyed "abc". *)
Lemma parse_position_malformed_entry_witness :
  fst (parse_position sample_config sample_rpc
         (JDict [("collaterals",
                    JDict [("fields",
                      JDict [("contents",
                        JList [collateral_entry (JStr "1") (JStr "500000000000");
                               collateral_entry (JStr "abc") (JStr "1")])])])])
         sample_prices ∅) = None.
Proof.
  apply (parse_position_malformed_entry _ _ _ _ _
           [collateral_entry (JStr "1") (JStr "500000000000");
            collateral_entry (JStr "abc") (JStr "1")] []
           (collateral_entry (JStr "abc") (JStr "1"))); [reflexivity | reflexivity |].
  left. split; [simpl; auto | reflexivity].
Defined.
